(** * Orchids challenge backend ([backend/hello.py]): scrape and clone pipeline

    A shallow embedding of the scrape endpoint ([scrape_website]), the record
    store ([load_scraped_data], [save_scraped_data]) and the clone endpoint
    ([clone_website_with_llm]), together with the properties of the
    specification that concern them.

    Python values are modelled as follows.
    - [str] is a sequence of Unicode code points: [list N].  [len] is
      [length], [s[:n]] is [take n s], [s[n:]] is [drop n s].
    - a [dict] keyed by strings is a [gmap str _].
    - [None] or a value is an [option].
    - a call into a library that may raise (HTTP client, HTML parser, browser,
      file system, language model) takes its outcome from an environment
      record; exceptions are values of type [exn] and are caught by class,
      as the [except] clauses of the source do. *)

From Stdlib Require Import NArith Strings.String Strings.Ascii DecimalString.
From stdpp Require Import base numbers list option gmap.

Local Open Scope nat_scope.

(** ** Python strings *)

Module Py.

Definition str := list N.

(** A literal of the source, as code points. *)
Definition lit (s : string) : str :=
  List.map N_of_ascii (list_ascii_of_string s).

(** [s.startswith(p)] *)
Fixpoint startswith (p s : str) : bool :=
  match p, s with
  | [], _ => true
  | _ :: _, [] => false
  | a :: p', b :: s' => N.eqb a b && startswith p' s'
  end.

(** [s.endswith(p)] *)
Definition endswith (p s : str) : bool :=
  startswith (reverse p) (reverse s).

(** [s.replace(old, new)] for a non-empty [old]: the occurrences of [old]
    are found from the left and do not overlap.  [skip] counts the
    characters of the occurrence found last that are still to be passed
    over. *)
Fixpoint replace_from (old new : str) (skip : nat) (s : str) : str :=
  match s with
  | [] => []
  | c :: s' =>
      match skip with
      | S k => replace_from old new k s'
      | O =>
          if startswith old s
          then new ++ replace_from old new (length old - 1) s'
          else c :: replace_from old new 0 s'
      end
  end.

(** [s.replace(old, new)].  With an empty [old] Python puts [new] before
    every character and at the end. *)
Definition replace (old new s : str) : str :=
  match old with
  | [] => new ++ concat (List.map (fun c => c :: new) s)
  | _ :: _ => replace_from old new 0 s
  end.

(** [c.isspace()], the characters that [str.strip()] removes: the ASCII
    ones (tab to carriage return, the four separators, space) and the
    Unicode white space. *)
Definition isspace (c : N) : bool :=
  ((9 <=? c) && (c <=? 13) || (28 <=? c) && (c <=? 32)
   || (c =? 133) || (c =? 160) || (c =? 5760)
   || (8192 <=? c) && (c <=? 8202)
   || (c =? 8232) || (c =? 8233) || (c =? 8239) || (c =? 8287)
   || (c =? 12288))%N.

(** [s.lstrip()] *)
Fixpoint lstrip (s : str) : str :=
  match s with
  | [] => []
  | c :: s' => if isspace c then lstrip s' else s
  end.

(** [s.rstrip()] *)
Definition rstrip (s : str) : str := reverse (lstrip (reverse s)).

(** [s.strip()] *)
Definition strip (s : str) : str := rstrip (lstrip s).

(** [s[a:-b]] for literal [a] and [b > 0]: the end index is
    [len(s) - b], clamped at 0, and the slice is empty when the end does not
    lie after the start. *)
Definition slice_to_end (a b : nat) (s : str) : str :=
  drop a (take (length s - b) s).

(** Truthiness of an [Optional[str]]: [None] and [""] are false. *)
Definition truthy (o : option str) : bool :=
  match o with
  | Some (_ :: _) => true
  | _ => false
  end.

(** [s.lstrip(c)] for a one-character argument. *)
Fixpoint lstrip_char (c : N) (s : str) : str :=
  match s with
  | [] => []
  | x :: s' => if N.eqb x c then lstrip_char c s' else s
  end.

(** [str(n)] for a non-negative [int]. *)
Definition str_int (n : nat) : str :=
  lit (NilEmpty.string_of_uint (Nat.to_uint n)).

(** [os.path.join(a, b)] on POSIX. *)
Definition path_join (a b : str) : str :=
  if startswith (lit "/") b then b
  else if bool_decide (a = []) || endswith (lit "/") a then a ++ b
  else a ++ lit "/" ++ b.

End Py.

Abbreviation str := Py.str.

(** ** Identifier normalizer ([scrape_website], the first three lines) *)

Definition HASH_SUFFIX : str := Py.lit "_hash".

(** The chain of [replace] calls that computes [url_id]. *)
Definition url_id_replaced (url : str) : str :=
  Py.replace (Py.lit "&") (Py.lit "_")
  (Py.replace (Py.lit "=") (Py.lit "_")
  (Py.replace (Py.lit "?") (Py.lit "_")
  (Py.replace (Py.lit ":") (Py.lit "_")
  (Py.replace (Py.lit ".") (Py.lit "_")
  (Py.replace (Py.lit "/") (Py.lit "_")
  (Py.replace (Py.lit "www.") []
  (Py.replace (Py.lit "http://") []
  (Py.replace (Py.lit "https://") [] url)))))))).

(** [url_id], after the length test. *)
Definition normalize_url_id (url : str) : str :=
  let url_id := url_id_replaced url in
  if 100 <? length url_id then take 100 url_id ++ HASH_SUFFIX else url_id.

(** The six characters that become an underscore. *)
Definition is_separator (c : N) : bool :=
  ((c =? 47) || (c =? 46) || (c =? 58) || (c =? 63) || (c =? 61)
   || (c =? 38))%N.

Definition underscore (c : N) : N := if is_separator c then 95%N else c.

(** The three marker strings taken out, wherever they stand. *)
Definition removed_markers (url : str) : str :=
  Py.replace (Py.lit "www.") []
    (Py.replace (Py.lit "http://") []
       (Py.replace (Py.lit "https://") [] url)).

(** The length test alone. *)
Definition truncate_key (key : str) : str :=
  if 100 <? length key then take 100 key ++ HASH_SUFFIX else key.

(** None of the six characters is left. *)
Definition separator_free (s : str) : Prop :=
  Forall (fun c => is_separator c = false) s.

(** [q in s] for strings. *)
Fixpoint occurs (q s : str) : bool :=
  Py.startswith q s ||
  match s with
  | [] => false
  | _ :: s' => occurs q s'
  end.

(** The Identifier Normalizer as the specification words it: the scheme and
    a leading [www.] are stripped from the front of the URL only. *)
Definition spec_strip_prefix (q s : str) : str :=
  if Py.startswith q s then drop (length q) s else s.

Definition spec_url_id (url : str) : str :=
  let no_scheme :=
    if Py.startswith (Py.lit "https://") url
    then spec_strip_prefix (Py.lit "https://") url
    else spec_strip_prefix (Py.lit "http://") url in
  let host := spec_strip_prefix (Py.lit "www.") no_scheme in
  let key := underscore <$> host in
  if 100 <? length key then take 100 key ++ HASH_SUFFIX else key.

(** ** Exceptions and results *)

(** [httpx.Response], as far as the source reads it. *)
Record Response := { status_code : nat; text : str }.

(** The exception classes the source tells apart in its [except] clauses.
    All of them derive from [Exception]; [Error] stands for every other
    class that does ([OSError], [UnicodeDecodeError], the browser's errors,
    [KeyError], ...). *)
Inductive exn :=
| JSONDecodeError (msg : str)
| RequestError (msg : str)
| HTTPStatusError (msg : str) (response : Response)
| Error (msg : str)
| HTTPException (status : nat) (detail : str).

(** [str(e)] *)
Definition exn_str (e : exn) : str :=
  match e with
  | JSONDecodeError msg | RequestError msg | HTTPStatusError msg _
  | Error msg => msg
  | HTTPException status detail => Py.str_int status ++ Py.lit ": " ++ detail
  end.

Inductive result (A : Type) :=
| Ok (a : A)
| Raise (e : exn).
Arguments Ok {A} a.
Arguments Raise {A} e.

Definition is_ok {A} (r : result A) : bool :=
  match r with Ok _ => true | Raise _ => false end.

Definition rbind {A B} (r : result A) (k : A -> result B) : result B :=
  match r with
  | Ok a => k a
  | Raise e => Raise e
  end.

(** [try: r except Exception: h] *)
Definition try_except {A} (r : result A) (h : exn -> result A) : result A :=
  match r with
  | Ok a => Ok a
  | Raise e => h e
  end.

(** ** Records and the store *)

(** [ScrapedData]; [.dict()] of it is what the store holds. *)
Record ScrapedData := {
  id : str;
  url : str;
  html_content : option str;
  screenshot_path : option str;
  assets : option (gmap str (list str));
  title : option str
}.

(** The store is taken at the type the endpoints declare for it,
    [Dict[str, ScrapedData]]. *)
Abbreviation Store := (gmap str ScrapedData).

(** What [scraped_data.json] holds, by what [json.load] does with it:
    bytes that are no text in the encoding of [open] ([UnicodeDecodeError]);
    text that the parser rejects with a [JSONDecodeError]; text on which the
    parser raises an exception of another class ([RecursionError] on deep
    nesting, [ValueError] on an integer literal with too many digits); or a
    document.  [json.dump] followed by [json.load] gives the dictionary
    back, so a document is kept as the dictionary.  Only documents of the
    declared type of the store are held; JSON text of another type (a list,
    a number, [null]) is outside this type. *)
Inductive file_content :=
| Undecodable (msg : str)
| InvalidJSON (msg : str)
| ParserFails (msg : str)
| Document (d : Store).

Inductive store_file :=
| NoFile
| NoAccess (msg : str)
| Content (c : file_content).

(** [os.path.exists(SCRAPED_DATA_FILE)] *)
Definition os_path_exists (f : store_file) : bool :=
  match f with
  | NoFile => false
  | _ => true
  end.

(** [open(SCRAPED_DATA_FILE, 'r')] *)
Definition open_read (f : store_file) : result file_content :=
  match f with
  | NoFile =>
      Raise (Error (Py.lit "[Errno 2] No such file or directory: 'scraped_data.json'"))
  | NoAccess msg => Raise (Error msg)
  | Content c => Ok c
  end.

(** [json.load(data_file)] *)
Definition json_load (c : file_content) : result Store :=
  match c with
  | Undecodable msg => Raise (Error msg)
  | InvalidJSON msg => Raise (JSONDecodeError msg)
  | ParserFails msg => Raise (Error msg)
  | Document d => Ok d
  end.

Definition load_scraped_data (f : store_file) : result Store :=
  if os_path_exists f then
    rbind (open_read f) (fun data_file =>
      match json_load data_file with
      | Raise (JSONDecodeError _) => Ok ∅
      | r => r
      end)
  else Ok ∅.

(** How [save_scraped_data] can end: the file is rewritten; [open] raises
    and the file is as before; or the write raises after [open] has
    truncated the file, which leaves a proper prefix of the document, and
    that is no JSON document. *)
Inductive save_outcome :=
| Saved
| OpenFails (msg : str)
| WriteFails (msg : str).

Definition save_scraped_data (o : save_outcome) (data : Store)
    (f : store_file) : result unit * store_file :=
  match o with
  | Saved => (Ok tt, Content (Document data))
  | OpenFails msg => (Raise (Error msg), f)
  | WriteFails msg =>
      (Raise (Error msg), Content (InvalidJSON (Py.lit "truncated")))
  end.

(** ** The scrape endpoint *)

(** The parsed document, as far as the source reads it: [soup.title] with
    its [.string], and the attribute values that the three [find_all] calls
    yield, in document order. *)
Record Soup := {
  soup_title : option (option str);
  img_src : list str;
  stylesheet_href : list str;
  script_src : list str
}.

(** The outcomes of the library calls of one [/webscrape] request. *)
Record ScrapeEnv := {
  client_get : str -> result Response;
  status_error_message : Response -> str;
  BeautifulSoup : str -> result Soup;
  httpx_URL : str -> result str;
  URL_join : str -> str -> result str;
  playwright_start : result unit;
  chromium_launch : result unit;
  browser_new_page : result unit;
  page_goto : str -> result unit;
  page_screenshot : str -> result unit;
  browser_close : result unit;
  playwright_stop : result unit;
  store_write : save_outcome
}.

Definition is_success (res : Response) : bool :=
  (200 <=? status_code res) && (status_code res <=? 299).

(** [res.raise_for_status()] *)
Definition raise_for_status (env : ScrapeEnv) (res : Response) : result unit :=
  if is_success res then Ok tt
  else Raise (HTTPStatusError (status_error_message env res) res).

Definition SCREENSHOTS_DIR : str := Py.lit "public/screenshots".

Definition empty_assets : gmap str (list str) :=
  <[Py.lit "images" := []]>
  (<[Py.lit "stylesheets" := []]>
  (<[Py.lit "scripts" := []]> ∅)).

(** [d[key]]; the message of a [KeyError] is the key between quotes (for
    a key that itself needs no escape). *)
Definition getitem {V} (d : gmap str V) (key : str) : result V :=
  match d !! key with
  | Some v => Ok v
  | None => Raise (Error (Py.lit "'" ++ key ++ Py.lit "'"))
  end.

(** [assets[key].append(x)] *)
Definition assets_append (key x : str) (assets : gmap str (list str))
    : result (gmap str (list str)) :=
  rbind (getitem assets key) (fun l => Ok (<[key := l ++ [x]]> assets)).

(** [src.startswith(('data:', '#'))] *)
Definition is_inline_ref (src : str) : bool :=
  Py.startswith (Py.lit "data:") src || Py.startswith (Py.lit "#") src.

(** The body of one of the three loops over elements. *)
Definition resolve_one (env : ScrapeEnv) (base key : str)
    (assets : gmap str (list str)) (src : str) : gmap str (list str) :=
  if negb (is_inline_ref src) then
    match rbind (URL_join env base src)
            (fun resolved_url => assets_append key resolved_url assets) with
    | Ok assets' => assets'
    | Raise _ => assets
    end
  else assets.

(** The block [#SCRAPE ASSETS] after [base_url_parsed] is there. *)
Definition scrape_assets (env : ScrapeEnv) (base : str) (soup : Soup)
    : gmap str (list str) :=
  let a0 := empty_assets in
  let a1 := foldl (resolve_one env base (Py.lit "images")) a0 (img_src soup) in
  let a2 := foldl (resolve_one env base (Py.lit "stylesheets")) a1
              (stylesheet_href soup) in
  foldl (resolve_one env base (Py.lit "scripts")) a2 (script_src soup).

(** Leaving [async with async_playwright()]: the driver is stopped, and an
    exception from that replaces the one in flight. *)
Definition with_playwright {A} (env : ScrapeEnv) (body : result A)
    : result A :=
  rbind (playwright_start env) (fun _ =>
    let r := body in
    match playwright_stop env with
    | Ok _ => r
    | Raise e => Raise e
    end).

(** The block [#TAKE SCREENSHOTS]; the value is
    [relative_screenshot_path] after it. *)
Definition take_screenshot (env : ScrapeEnv) (request_url url_id : str)
    : result (option str) :=
  let screenshot_filename := url_id ++ Py.lit ".png" in
  let screenshot_path := Py.path_join SCREENSHOTS_DIR screenshot_filename in
  let relative_screenshot_path :=
    Py.lit "/public/screenshots/" ++ screenshot_filename in
  with_playwright env
    (rbind (chromium_launch env) (fun _ =>
     rbind (browser_new_page env) (fun _ =>
       let captured :=
         try_except
           (rbind (page_goto env request_url) (fun _ =>
            rbind (page_screenshot env screenshot_path) (fun _ =>
            Ok (Some relative_screenshot_path))))
           (fun _ => Ok None) in
       rbind (browser_close env) (fun _ => captured)))).

Record AssetsCount := {
  images : nat;
  stylesheets : nat;
  scripts : nat;
  links : nat
}.

(** The dictionary that [scrape_website] returns. *)
Record ScrapeSummary := {
  summary_success : bool;
  summary_url : str;
  summary_title : option str;
  summary_id : str;
  html_content_length : nat;
  screenshot_url : option str;
  assets_count : AssetsCount
}.

(** A computation on the store file that may raise. *)
Definition M (A : Type) : Type := store_file -> result A * store_file.

Definition mret {A} (a : A) : M A := fun f => (Ok a, f).

Definition mbind {A B} (m : M A) (k : A -> M B) : M B :=
  fun f =>
    match m f with
    | (Ok a, f') => k a f'
    | (Raise e, f') => (Raise e, f')
    end.

Definition lift {A} (r : result A) : M A := fun f => (r, f).

Definition mcatch {A} (m : M A) (h : exn -> M A) : M A :=
  fun f =>
    match m f with
    | (Ok a, f') => (Ok a, f')
    | (Raise e, f') => h e f'
    end.

Declare Scope m_scope.
Delimit Scope m_scope with M.
Notation "x <- m ;; k" := (mbind m (fun x => k))
  (at level 100, m at next level, right associativity) : m_scope.
Notation "m ;;; k" := (mbind m (fun _ => k))
  (at level 100, right associativity) : m_scope.

(** The body of the [try] of [scrape_website]. *)
Definition scrape_body (env : ScrapeEnv) (request_url url_id : str)
    (scraped_data : Store) : M ScrapeSummary :=
  (res <- lift (client_get env request_url) ;;
   lift (raise_for_status env res) ;;;
   let html_content := text res in
   soup <- lift (BeautifulSoup env html_content) ;;
   let title :=
     match soup_title soup with
     | Some title_string => title_string
     | None => Some (Py.lit "Title not found")
     end in
   base_url_parsed <- lift (httpx_URL env request_url) ;;
   let assets := scrape_assets env base_url_parsed soup in
   relative_screenshot_path <- lift (take_screenshot env request_url url_id) ;;
   let new_scraped_entry :=
     {| id := url_id; url := request_url; title := title;
        html_content := Some html_content;
        screenshot_path := relative_screenshot_path;
        assets := Some assets |} in
   save_scraped_data (store_write env)
     (<[url_id := new_scraped_entry]> scraped_data) ;;;
   n_images <- lift (getitem assets (Py.lit "images")) ;;
   n_stylesheets <- lift (getitem assets (Py.lit "stylesheets")) ;;
   n_scripts <- lift (getitem assets (Py.lit "scripts")) ;;
   mret {| summary_success := true; summary_url := request_url;
           summary_title := title; summary_id := url_id;
           html_content_length := length html_content;
           screenshot_url := relative_screenshot_path;
           assets_count :=
             {| images := length n_images;
                stylesheets := length n_stylesheets;
                scripts := length n_scripts; links := 0 |} |})%M.

(** The three [except] clauses of [scrape_website], in their order. *)
Definition scrape_handler (request_url : str) (e : exn) : exn :=
  match e with
  | RequestError _ =>
      HTTPException 500
        (Py.lit "An error occurred while requesting " ++ request_url
         ++ Py.lit ": " ++ exn_str e)
  | HTTPStatusError _ response =>
      HTTPException (status_code response)
        (Py.lit "HTTP error " ++ Py.str_int (status_code response)
         ++ Py.lit " occurred while fetching " ++ request_url
         ++ Py.lit ": " ++ text response)
  | _ =>
      HTTPException 500
        (Py.lit "An unexpected error occurred: " ++ exn_str e)
  end.

(** [POST /webscrape].  [load_scraped_data] is called before the [try]. *)
Definition scrape_website (env : ScrapeEnv) (request_url : str)
    : M ScrapeSummary :=
  let url_id := normalize_url_id request_url in
  (scraped_data <- (fun f => (load_scraped_data f, f)) ;;
   mcatch (scrape_body env request_url url_id scraped_data)
     (fun e => lift (Raise (scrape_handler request_url e))))%M.

(** A sequence of [/webscrape] requests, each with the outcomes of its
    calls; the value is the store file after the last. *)
Definition run_scrapes (requests : list (ScrapeEnv * str))
    (f : store_file) : store_file :=
  foldl (fun f '(env, request_url) => snd (scrape_website env request_url f))
    f requests.

(** [GET /scraped-data] *)
Definition get_scraped_data (f : store_file) : result Store :=
  load_scraped_data f.

(** ** The clone endpoint *)

Definition DOCTYPE : str := Py.lit "<!DOCTYPE html>".

Definition FENCE : str := Py.lit "```".

Definition FENCE_HTML : str := Py.lit "```html".

(** The two fence tests of [clone_website_with_llm] on the model's text. *)
Definition strip_fences (cloned_html : str) : str :=
  if Py.startswith FENCE_HTML cloned_html && Py.endswith FENCE cloned_html
  then Py.strip (Py.slice_to_end 7 3 cloned_html)
  else if Py.startswith FENCE cloned_html && Py.endswith FENCE cloned_html
  then Py.strip (Py.slice_to_end 3 3 cloned_html)
  else cloned_html.

(** The repair of the model's text: the fence tests, then the test for the
    declaration. *)
Definition clean_cloned_html (cloned_html : str) : str :=
  let cloned_html := strip_fences cloned_html in
  if negb (Py.startswith DOCTYPE (Py.strip cloned_html))
  then Py.lit "<!DOCTYPE html>
" ++ cloned_html
  else cloned_html.

(** A content block of the user message. *)
Inductive Block :=
| TextBlock (text : str)
| ImageBlock (source_type media_type data : str).

Record Message := { role : str; content : list Block }.

(** The arguments of [client.messages.create]; the sampling temperature, a
    constant float, is left out. *)
Record Prompt := {
  model : str;
  max_tokens : nat;
  system : str;
  messages : list Message
}.

(** A block of the model's answer: one with a [.text], or a block of
    another class, which has none. *)
Inductive AnswerBlock :=
| TextAnswer (text : str)
| OtherAnswer (class_name : str).

Record CloneResponse := {
  success : bool;
  cloned_html : option str;
  message : option str
}.

(** The outcomes of the library calls of one [/clone-website] request. *)
Record CloneEnv := {
  os_getcwd : str;
  screenshot_exists : str -> bool;
  read_b64encode : str -> result str;
  messages_create : Prompt -> result (list AnswerBlock)
}.

Definition system_prompt : str := Py.lit "
    You are an expert web developer specializing in creating accurate HTML clones of websites.
    Your primary objective is to replicate the visual appearance of the provided website screenshot as precisely as possible. Every detail matters: layout, colors, font styles, spacing, element sizes, and component design.
    The final output must be a single, complete, and valid HTML file. All CSS must be embedded within a `<style>` tag in the `<head>`, and any necessary JavaScript within a `<script>` tag just before `</body>`.
    Do not include any external stylesheets, scripts, or frameworks unless their use is explicitly verifiable from the provided raw HTML content.
    For images shown in the screenshot, use `<img>` tags and reference their original URLs if possible. If not, create a visually appropriate placeholder.
    Thank you!".

(** [user_message_content], as the source appends to it. *)
Definition user_message_content (env : CloneEnv) (html_content : option str)
    (actual_screenshot_file_path : option str) : list Block :=
  let html_part :=
    match html_content with
    | Some (c :: h) =>
        [TextBlock (Py.lit "Here is the raw HTML content of the original website, provided as additional context. Analyze its structure but prioritize the visual outcome from the screenshot:

```html
" ++ (c :: h) ++ Py.lit "
```")]
    | _ =>
        [TextBlock (Py.lit "No raw HTML content available. Please rely solely on the visual screenshot.")]
    end in
  let screenshot_part :=
    match actual_screenshot_file_path with
    | Some (c :: q) =>
        if screenshot_exists env (c :: q) then
          match read_b64encode env (c :: q) with
          | Ok encoded_image =>
              [ImageBlock (Py.lit "base64") (Py.lit "image/png") encoded_image;
               TextBlock (Py.lit "Here is the visual screenshot of the website that you must replicate:")]
          | Raise _ => [TextBlock (Py.lit "Error loading screenshot.")]
          end
        else [TextBlock (Py.lit "No screenshot available or file not found.")]
    | _ => [TextBlock (Py.lit "No screenshot available or file not found.")]
    end in
  html_part ++ screenshot_part
  ++ [TextBlock (Py.lit "Please provide the complete HTML code for the cloned website, starting directly with `<!DOCTYPE html>`.")].

(** [response.content[0].text] *)
Definition first_text (answer : list AnswerBlock) : result str :=
  match answer with
  | [] => Raise (Error (Py.lit "list index out of range"))
  | TextAnswer t :: _ => Ok t
  | OtherAnswer class_name :: _ =>
      Raise (Error (Py.lit "'" ++ class_name
                    ++ Py.lit "' object has no attribute 'text'"))
  end.

(** [POST /clone-website].  The second component lists the requests sent to
    the model, in order. *)
Definition clone_website_with_llm (env : CloneEnv) (url_id : str)
    (f : store_file) : result CloneResponse * list Prompt :=
  match load_scraped_data f with
  | Raise e => (Raise e, [])
  | Ok scraped_data =>
      match scraped_data !! url_id with
      | None =>
          (Raise (HTTPException 404
                    (Py.lit "Scraped data not found for this URL ID.")), [])
      | Some data =>
          let html_content := html_content data in
          let screenshot_path_for_file := screenshot_path data in
          let actual_screenshot_file_path :=
            match screenshot_path_for_file with
            | Some (c :: q) =>
                Some (Py.path_join (os_getcwd env)
                        (Py.lstrip_char 47 (c :: q)))
            | _ => None
            end in
          if negb (Py.truthy html_content)
             && negb (Py.truthy actual_screenshot_file_path)
          then
            (Raise (HTTPException 400
                      (Py.lit "No HTML content or screenshot available for cloning.")),
             [])
          else
            let request :=
              {| model := Py.lit "claude-4-sonnet-20250514";
                 max_tokens := 4000;
                 system := system_prompt;
                 messages :=
                   [{| role := Py.lit "user";
                       content :=
                         user_message_content env html_content
                           actual_screenshot_file_path |}] |} in
            (try_except
               (rbind (messages_create env request) (fun answer =>
                rbind (first_text answer) (fun cloned_html =>
                Ok {| success := true;
                      cloned_html := Some (clean_cloned_html cloned_html);
                      message := None |})))
               (fun e =>
                  Raise (HTTPException 500
                           (Py.lit "LLM cloning failed: " ++ exn_str e))),
             [request])
      end
  end.

(** ** Notions used to state the properties *)

(** The store as a reader finds it: what [load_scraped_data] returns, and
    nothing when it raises. *)
Definition store_of (f : store_file) : Store :=
  match load_scraped_data f with
  | Ok d => d
  | Raise _ => ∅
  end.

(** The three asset categories. *)
Definition asset_categories : gset str :=
  {[ Py.lit "images"; Py.lit "stylesheets"; Py.lit "scripts" ]}.

(** The failures of the fetch and of the parse, with the exception that
    reaches the [except] clauses of [scrape_website]. *)
Inductive fetch_or_parse_fails (env : ScrapeEnv) (request_url : str)
    : exn -> Prop :=
| transport_error msg :
    client_get env request_url = Raise (RequestError msg) ->
    fetch_or_parse_fails env request_url (RequestError msg)
| status_error res :
    client_get env request_url = Ok res ->
    is_success res = false ->
    fetch_or_parse_fails env request_url
      (HTTPStatusError (status_error_message env res) res)
| parse_error res e :
    client_get env request_url = Ok res ->
    is_success res = true ->
    BeautifulSoup env (text res) = Raise e ->
    fetch_or_parse_fails env request_url e.

(** The capture itself fails: the navigation raises, or the navigation
    returns and the screenshot raises. *)
Definition capture_raises (env : ScrapeEnv) (request_url url_id : str)
    : Prop :=
  is_ok (page_goto env request_url) = false
  \/ is_ok (page_screenshot env
             (Py.path_join SCREENSHOTS_DIR (url_id ++ Py.lit ".png")))
     = false.

(** The URLs one category receives from the attribute values [srcs]: the
    values that are no inline reference and that resolve, in their order. *)
Definition resolved_urls (env : ScrapeEnv) (base : str) (srcs : list str)
    : list str :=
  omap (fun src =>
          if is_inline_ref src then None
          else match URL_join env base src with
               | Ok resolved_url => Some resolved_url
               | Raise _ => None
               end) srcs.

(** The record that a scrape with these outcomes assembles. *)
Definition scraped_entry (env : ScrapeEnv) (request_url : str)
    (res : Response) (soup : Soup) (base : str) (shot : option str)
    : ScrapedData :=
  {| id := normalize_url_id request_url;
     url := request_url;
     title := match soup_title soup with
              | Some title_string => title_string
              | None => Some (Py.lit "Title not found")
              end;
     html_content := Some (text res);
     screenshot_path := shot;
     assets := Some (scrape_assets env base soup) |}.

(** A record with exactly the three asset categories. *)
Definition assets_complete (r : ScrapedData) : Prop :=
  exists a, assets r = Some a /\ dom a = asset_categories.

(** ** Sample outcomes, for the examples *)

Definition example_url : str := Py.lit "https://www.example.com/a?b=1".

Definition example_soup : Soup :=
  {| soup_title := Some (Some (Py.lit "Example"));
     img_src := [Py.lit "img/x.png"; Py.lit "data:image/png;base64,AAAA";
                 Py.lit "#top"];
     stylesheet_href := [Py.lit "style.css"];
     script_src := [Py.lit "#"; Py.lit "app.js"] |}.

(** A stand-in for URL resolution: the reference is put after the base. *)
Definition example_join (base ref : str) : result str := Ok (base ++ ref).

Definition example_env (get : result Response) (parse : result Soup)
    (launch goto shot : result unit) (write : save_outcome) : ScrapeEnv :=
  {| client_get := fun _ => get;
     status_error_message := fun _ => Py.lit "status error";
     BeautifulSoup := fun _ => parse;
     httpx_URL := fun request_url => Ok request_url;
     URL_join := example_join;
     playwright_start := Ok tt;
     chromium_launch := launch;
     browser_new_page := Ok tt;
     page_goto := fun _ => goto;
     page_screenshot := fun _ => shot;
     browser_close := Ok tt;
     playwright_stop := Ok tt;
     store_write := write |}.

Definition example_page : Response :=
  {| status_code := 200; text := Py.lit "<html><title>Example</title></html>" |}.

Definition example_not_found : Response :=
  {| status_code := 404; text := Py.lit "Not Found" |}.

(** A record with neither markup nor screenshot. *)
Definition example_empty_record : ScrapedData :=
  {| id := Py.lit "example_com"; url := Py.lit "http://example.com";
     html_content := None; screenshot_path := None; assets := None;
     title := None |}.

Definition example_store : Store :=
  {[ Py.lit "example_com" := example_empty_record ]}.

Definition example_clone_env (answer : result (list AnswerBlock)) : CloneEnv :=
  {| os_getcwd := Py.lit "/app";
     screenshot_exists := fun _ => false;
     read_b64encode := fun _ =>
       Raise (Error (Py.lit "[Errno 2] No such file or directory"));
     messages_create := fun _ => answer |}.

(** ** Notions for the further properties *)

(** [actual_screenshot_file_path] of [clone_website_with_llm] for a
    record. *)
Definition clone_screenshot_file (env : CloneEnv) (data : ScrapedData)
    : option str :=
  match screenshot_path data with
  | Some (c :: q) =>
      Some (Py.path_join (os_getcwd env) (Py.lstrip_char 47 (c :: q)))
  | _ => None
  end.

(** The test before the status 400 of [clone_website_with_llm]. *)
Definition insufficient_data (env : CloneEnv) (data : ScrapedData) : bool :=
  negb (Py.truthy (html_content data))
  && negb (Py.truthy (clone_screenshot_file env data)).

(** The request that [clone_website_with_llm] sends for a record. *)
Definition clone_request (env : CloneEnv) (data : ScrapedData) : Prompt :=
  {| model := Py.lit "claude-4-sonnet-20250514";
     max_tokens := 4000;
     system := system_prompt;
     messages :=
       [{| role := Py.lit "user";
           content :=
             user_message_content env (html_content data)
               (clone_screenshot_file env data) |}] |}.

Definition is_image (b : Block) : bool :=
  match b with
  | ImageBlock _ _ _ => true
  | TextBlock _ => false
  end.

(** A record with empty markup and no screenshot. *)
Definition example_blank_record : ScrapedData :=
  {| id := Py.lit "blank"; url := Py.lit "http://blank";
     html_content := Some []; screenshot_path := None; assets := None;
     title := None |}.
(** ** Facts about Python strings *)

Section PyFacts.

Lemma startswith_spec (q s : str) :
  Py.startswith q s = true <-> exists t, s = q ++ t.
Proof.
  revert s. induction q as [|a q IH]; intros s; simpl.
  - split; [eauto | done].
  - destruct s as [|b s].
    + split; [done | by intros [t ?]].
    + rewrite andb_true_iff, N.eqb_eq, IH. split.
      * intros [-> [t ->]]. eauto.
      * intros [t [= -> ->]]. eauto.
Qed.

Lemma startswith_elem (q s : str) (c : N) :
  Py.startswith q s = true -> c ∈ q -> c ∈ s.
Proof.
  rewrite startswith_spec. intros [t ->] ?. set_solver.
Qed.

(** A pattern with a character that the string lacks does not occur. *)
Lemma replace_absent (c : N) (old new s : str) :
  c ∈ old -> c ∉ s -> Py.replace old new s = s.
Proof.
  intros Hold. destruct old as [|a old]; [by apply elem_of_nil in Hold|].
  unfold Py.replace. induction s as [|x s IH]; intros Hs; [done|].
  cbn [Py.replace_from].
  destruct (Py.startswith (a :: old) (x :: s)) eqn:E.
  - exfalso. apply Hs. by eapply startswith_elem.
  - f_equal. apply IH. intros ?. apply Hs. by right.
Qed.

(** Replacing one character by one character is a [map]. *)
Lemma replace_char (c u : N) (s : str) :
  Py.replace [c] [u] s = (fun x => if N.eqb c x then u else x) <$> s.
Proof.
  unfold Py.replace. induction s as [|x s IH]; [done|].
  rewrite fmap_cons, <- IH. cbn. rewrite andb_true_r.
  by destruct (N.eqb c x).
Qed.

(** The two equations of [replace]: at an occurrence, and elsewhere. *)
Lemma replace_from_skip (old new : str) (k : nat) (q s : str) :
  length q = k ->
  Py.replace_from old new k (q ++ s) = Py.replace_from old new 0 s.
Proof.
  revert k. induction q as [|x q IH]; intros k <-; [done|].
  cbn. by apply IH.
Qed.

Lemma replace_occurrence (old new s : str) :
  old <> [] -> Py.replace old new (old ++ s) = new ++ Py.replace old new s.
Proof.
  destruct old as [|a old]; [done|]. intros _. unfold Py.replace.
  cbn [app Py.replace_from].
  assert (Py.startswith (a :: old) (a :: old ++ s) = true) as ->.
  { apply startswith_spec. by exists s. }
  f_equal. apply replace_from_skip. cbn. lia.
Qed.

Lemma replace_elsewhere (old new : str) (c : N) (s : str) :
  old <> [] -> Py.startswith old (c :: s) = false ->
  Py.replace old new (c :: s) = c :: Py.replace old new s.
Proof.
  destruct old as [|a old]; [done|]. intros _ E. unfold Py.replace.
  cbn [Py.replace_from]. by rewrite E.
Qed.

End PyFacts.

(** ** The identifier normalizer *)

Section Normalizer.

Lemma underscore_chain (x : N) :
  let r c y := if N.eqb c y then 95%N else y in
  r 38%N (r 61%N (r 63%N (r 58%N (r 46%N (r 47%N x))))) = underscore x.
Proof.
  cbv zeta. unfold underscore, is_separator.
  rewrite !(N.eqb_sym x).
  destruct (N.eqb_spec 47 x) as [<-|]; [done|].
  destruct (N.eqb_spec 46 x) as [<-|]; [done|].
  destruct (N.eqb_spec 58 x) as [<-|]; [done|].
  destruct (N.eqb_spec 63 x) as [<-|]; [done|].
  destruct (N.eqb_spec 61 x) as [<-|]; [done|].
  destruct (N.eqb_spec 38 x) as [<-|]; [done|].
  done.
Qed.

(** The six one-character replacements amount to one [map]. *)
Lemma url_id_replaced_map (url : str) :
  url_id_replaced url = underscore <$> removed_markers url.
Proof.
  unfold url_id_replaced, removed_markers.
  change (Py.lit "&") with [38%N]. change (Py.lit "=") with [61%N].
  change (Py.lit "?") with [63%N]. change (Py.lit ":") with [58%N].
  change (Py.lit ".") with [46%N]. change (Py.lit "/") with [47%N].
  change (Py.lit "_") with [95%N].
  rewrite !replace_char, <- !list_fmap_compose.
  apply list_fmap_ext. intros _ x _. apply underscore_chain.
Qed.

Lemma normalize_url_id_eq (url : str) :
  normalize_url_id url = truncate_key (underscore <$> removed_markers url).
Proof.
  unfold normalize_url_id, truncate_key. by rewrite url_id_replaced_map.
Qed.

Lemma underscore_not_separator (x : N) : is_separator (underscore x) = false.
Proof.
  unfold underscore. destruct (is_separator x) eqn:E; done.
Qed.

Lemma separator_free_elem (s : str) (c : N) : separator_free s -> is_separator c = true -> c ∉ s.
Proof.
  intros Hs Hc Hin. unfold separator_free in Hs. rewrite Forall_forall in Hs.
  apply Hs in Hin. congruence.
Qed.

Lemma separator_free_truncate_key (s : str) : separator_free s -> separator_free (truncate_key s).
Proof.
  intros Hs. unfold truncate_key. case_match; [|done].
  apply Forall_app. split; [by apply Forall_take|].
  unfold separator_free. by repeat constructor.
Qed.

Lemma separator_free_normalize_url_id (url : str) : separator_free (normalize_url_id url).
Proof.
  rewrite normalize_url_id_eq. apply separator_free_truncate_key.
  apply Forall_fmap, Forall_forall. intros x _. apply underscore_not_separator.
Qed.

(** On a key without separators the nine replacements change nothing. *)
Ltac absent_marker c old :=
  rewrite (replace_absent c old);
  [ | vm_compute; set_solver | by apply separator_free_elem ].

Lemma url_id_replaced_separator_free (s : str) :
  separator_free s -> url_id_replaced s = s.
Proof.
  intros Hs. unfold url_id_replaced.
  absent_marker 58%N (Py.lit "https://"). absent_marker 58%N (Py.lit "http://").
  absent_marker 46%N (Py.lit "www."). absent_marker 47%N (Py.lit "/"). absent_marker 46%N (Py.lit ".").
  absent_marker 58%N (Py.lit ":"). absent_marker 63%N (Py.lit "?"). absent_marker 61%N (Py.lit "=").
  absent_marker 38%N (Py.lit "&"). done.
Qed.

Lemma truncate_key_idem (s : str) : truncate_key (truncate_key s) = truncate_key s.
Proof.
  unfold truncate_key at 2 3. destruct (100 <? length s) eqn:E.
  - apply Nat.ltb_lt in E. unfold truncate_key.
    assert (length (take 100 s ++ HASH_SUFFIX) = 105) as Hl.
    { rewrite length_app, length_take. change (length HASH_SUFFIX) with 5. lia. }
    rewrite Hl. change (100 <? 105) with true. cbv iota.
    rewrite take_app_length'; [done|]. rewrite length_take. lia.
  - unfold truncate_key. by rewrite E.
Qed.

(** C1. The identifier normalizer is idempotent: for every URL string,
    normalizing the key it produced gives that key back, also when the key
    came out of the truncation to 100 characters with the suffix. *)
Theorem normalize_url_id_idempotent (url : str) :
  normalize_url_id (normalize_url_id url) = normalize_url_id url.
Proof.
  pose proof (separator_free_normalize_url_id url) as Hc.
  unfold normalize_url_id at 1.
  rewrite (url_id_replaced_separator_free _ Hc).
  fold (truncate_key (normalize_url_id url)).
  rewrite normalize_url_id_eq. apply truncate_key_idem.
Qed.

Lemma occurs_startswith (q s : str) :
  occurs q s = false -> Py.startswith q s = false.
Proof. destruct s; cbn; by intros [? ?]%orb_false_iff. Qed.

Lemma replace_from_no_occurrence (a : N) (old new s : str) :
  occurs (a :: old) s = false -> Py.replace_from (a :: old) new 0 s = s.
Proof.
  induction s as [|c s IH]; [done|].
  cbn [occurs]. intros [Hc Hs]%orb_false_iff.
  cbn [Py.replace_from]. rewrite Hc. f_equal. by apply IH.
Qed.

Lemma startswith_cons (a b : N) (q s : str) :
  Py.startswith (a :: q) (b :: s) = N.eqb a b && Py.startswith q s.
Proof. done. Qed.

Lemma startswith_nil (s : str) : Py.startswith [] s = true.
Proof. done. Qed.

Lemma replace_from_here (old new : str) (c : N) (s : str) :
  Py.replace_from old new 0 (c :: s)
  = if Py.startswith old (c :: s)
    then new ++ Py.replace_from old new (length old - 1) s
    else c :: Py.replace_from old new 0 s.
Proof. done. Qed.

Lemma replace_from_skipping (old new : str) (k : nat) (c : N) (s : str) :
  Py.replace_from old new (S k) (c :: s) = Py.replace_from old new k s.
Proof. done. Qed.

Ltac step_strings :=
  repeat (progress
            (rewrite ?replace_from_here, ?replace_from_skipping,
               ?startswith_cons, ?startswith_nil, ?drop_0;
             cbn [N.eqb Pos.eqb andb length Nat.sub app drop])).

(** On a URL whose markers stand in front only, the normalizer does what
    the contract of the specification says. *)
Lemma normalize_url_id_leading_markers (front rest : str) :
  front ∈ [ []; Py.lit "www."; Py.lit "http://"; Py.lit "http://www.";
            Py.lit "https://"; Py.lit "https://www." ] ->
  occurs (Py.lit "https://") rest = false ->
  occurs (Py.lit "http://") rest = false ->
  occurs (Py.lit "www.") rest = false ->
  normalize_url_id (front ++ rest) = spec_url_id (front ++ rest).
Proof.
  intros Hfront H1 H2 H3.
  rewrite normalize_url_id_eq. unfold spec_url_id, truncate_key.
  assert (removed_markers (front ++ rest) = rest
          /\ spec_strip_prefix (Py.lit "www.")
               (if Py.startswith (Py.lit "https://") (front ++ rest)
                then spec_strip_prefix (Py.lit "https://") (front ++ rest)
                else spec_strip_prefix (Py.lit "http://") (front ++ rest))
             = rest) as [-> ->]; [|done].
  unfold removed_markers, spec_strip_prefix, Py.replace.
  change (Py.lit "https://") with [104; 116; 116; 112; 115; 58; 47; 47]%N in *.
  change (Py.lit "http://") with [104; 116; 116; 112; 58; 47; 47]%N in *.
  change (Py.lit "www.") with [119; 119; 119; 46]%N in *.
  change (Py.lit "http://www.")
    with [104; 116; 116; 112; 58; 47; 47; 119; 119; 119; 46]%N in *.
  change (Py.lit "https://www.")
    with [104; 116; 116; 112; 115; 58; 47; 47; 119; 119; 119; 46]%N in *.
  pose proof (occurs_startswith _ _ H1) as S1.
  pose proof (occurs_startswith _ _ H2) as S2.
  pose proof (occurs_startswith _ _ H3) as S3.
  pose proof (replace_from_no_occurrence 104 [116; 116; 112; 115; 58; 47; 47]
                [] rest H1)%N as R1.
  pose proof (replace_from_no_occurrence 104 [116; 116; 112; 58; 47; 47]
                [] rest H2)%N as R2.
  pose proof (replace_from_no_occurrence 119 [119; 119; 46] [] rest H3)%N
    as R3.
  repeat (apply elem_of_cons in Hfront as [-> | Hfront]);
    [ .. | by apply elem_of_nil in Hfront ];
    cbn [app]; step_strings;
    rewrite ?R1, ?S1; step_strings; rewrite ?R2, ?S2; step_strings;
    rewrite ?R3, ?S3; step_strings; done.
Qed.

Example normalize_example :
  normalize_url_id (Py.lit "https://www.example.com/a?b=1")
  = Py.lit "example_com_a_b_1".
Proof. reflexivity. Qed.

(** C2, as stated, fails: a [www.] that does not lead the host is removed
    as well, where the contract of the specification keeps it. *)
Lemma normalize_url_id_inner_www :
  normalize_url_id (Py.lit "http://a.com/www.b") = Py.lit "a_com_b"
  /\ spec_url_id (Py.lit "http://a.com/www.b") = Py.lit "a_com_www_b"
  /\ normalize_url_id (Py.lit "http://a.com/www.b")
     <> spec_url_id (Py.lit "http://a.com/www.b").
Proof. by vm_compute. Qed.

(** C2, amended.  For every URL the normalizer takes out the occurrences of
    [https://], then of [http://], then of [www.], wherever they stand in
    the string; turns each of the six characters into an underscore; and
    cuts the result to 100 characters followed by [_hash] exactly when it is
    longer than 100 characters.  The example of the specification holds. *)
Theorem normalize_url_id_contract (url : str) :
  let key := underscore <$> removed_markers url in
  (length key <= 100 /\ normalize_url_id url = key
   \/ 100 < length key /\ normalize_url_id url = take 100 key ++ Py.lit "_hash"
      /\ length (normalize_url_id url) = 105)
  /\ Forall (fun c => c <> 47 /\ c <> 46 /\ c <> 58 /\ c <> 63 /\ c <> 61
                     /\ c <> 38)%N (normalize_url_id url)
  /\ normalize_url_id (Py.lit "https://www.example.com/a?b=1")
     = Py.lit "example_com_a_b_1".
Proof.
  cbv zeta. split; [|split; [|reflexivity]].
  - rewrite normalize_url_id_eq. unfold truncate_key.
    destruct (100 <? length _) eqn:E.
    + right. apply Nat.ltb_lt in E. split; [done|]. split; [done|].
      rewrite length_app, length_take. change (length HASH_SUFFIX) with 5.
      lia.
    + left. by apply Nat.ltb_ge in E.
  - eapply Forall_impl; [apply separator_free_normalize_url_id|].
    intros c Hc. unfold is_separator in Hc.
    rewrite !orb_false_iff, !N.eqb_neq in Hc. tauto.
Qed.

End Normalizer.

(** ** The record store *)

Section RecordStore.

Lemma load_scraped_data_cases (f : store_file) :
  load_scraped_data f =
    match f with
    | NoFile => Ok ∅
    | NoAccess msg => Raise (Error msg)
    | Content (Undecodable msg) => Raise (Error msg)
    | Content (InvalidJSON _) => Ok ∅
    | Content (ParserFails msg) => Raise (Error msg)
    | Content (Document d) => Ok d
    end.
Proof. by destruct f as [| |[]]. Qed.

(** What the loader raises is never a [JSONDecodeError]. *)
Lemma load_scraped_data_raises (f : store_file) (e : exn) :
  load_scraped_data f = Raise e -> exists msg, e = Error msg.
Proof.
  rewrite load_scraped_data_cases. destruct f as [| |[]]; intros [= <-]; eauto.
Qed.

(** C9, as stated, fails: the file exists and holds no JSON document (its
    bytes are no text in the encoding of [open]), and the loader raises. *)
Lemma load_scraped_data_undecodable :
  let f := Content (Undecodable (Py.lit "UnicodeDecodeError")) in
  os_path_exists f = true
  /\ (forall d, f <> Content (Document d))
  /\ load_scraped_data f = Raise (Error (Py.lit "UnicodeDecodeError")).
Proof. cbv zeta. by repeat split. Qed.

End RecordStore.

(** ** The scrape endpoint *)

Section Scrape.

Lemma dom_empty_assets : dom empty_assets = asset_categories.
Proof.
  unfold empty_assets, asset_categories.
  rewrite !dom_insert_L, dom_empty_L. set_solver.
Qed.

Lemma resolve_one_dom (env : ScrapeEnv) (base key : str)
    (a : gmap str (list str)) (src : str) :
  dom (resolve_one env base key a src) = dom a.
Proof.
  unfold resolve_one, assets_append, getitem, rbind.
  repeat case_match; simplify_eq; try done.
  apply dom_insert_lookup_L. eauto.
Qed.

Lemma foldl_resolve_one_dom (env : ScrapeEnv) (base key : str) (l : list str)
    (a : gmap str (list str)) :
  dom (foldl (resolve_one env base key) a l) = dom a.
Proof.
  revert a. induction l as [|src l IH]; intros a; [done|].
  cbn. by rewrite IH, resolve_one_dom.
Qed.

Lemma scrape_assets_dom (env : ScrapeEnv) (base : str) (soup : Soup) :
  dom (scrape_assets env base soup) = asset_categories.
Proof.
  unfold scrape_assets. by rewrite !foldl_resolve_one_dom, dom_empty_assets.
Qed.

Lemma getitem_category (env : ScrapeEnv) (base : str) (soup : Soup)
    (key : str) :
  key ∈ asset_categories ->
  exists l, getitem (scrape_assets env base soup) key = Ok l.
Proof.
  rewrite <- (scrape_assets_dom env base soup), elem_of_dom.
  intros [l Hl]. exists l. unfold getitem. by rewrite Hl.
Qed.

Ltac unfold_scrape :=
  unfold scrape_website, scrape_body, mbind, mcatch, lift, mret,
    raise_for_status, save_scraped_data.

(** The run that reaches [save_scraped_data] and rewrites the file. *)
Lemma scrape_website_saved (env : ScrapeEnv) (request_url : str)
    (f : store_file) (d0 : Store) (res : Response) (soup : Soup)
    (base : str) (shot : option str) :
  load_scraped_data f = Ok d0 ->
  client_get env request_url = Ok res ->
  is_success res = true ->
  BeautifulSoup env (text res) = Ok soup ->
  httpx_URL env request_url = Ok base ->
  take_screenshot env request_url (normalize_url_id request_url) = Ok shot ->
  store_write env = Saved ->
  exists summary,
    scrape_website env request_url f
    = (Ok summary,
       Content (Document
                  (<[normalize_url_id request_url :=
                       scraped_entry env request_url res soup base shot]> d0)))
    /\ summary_success summary = true
    /\ summary_id summary = normalize_url_id request_url
    /\ screenshot_url summary = shot.
Proof.
  intros Hload Hget Hsucc Hsoup Hbase Hshot Hsave.
  destruct (getitem_category env base soup (Py.lit "images")) as [l1 H1];
    [unfold asset_categories; set_solver|].
  destruct (getitem_category env base soup (Py.lit "stylesheets")) as [l2 H2];
    [unfold asset_categories; set_solver|].
  destruct (getitem_category env base soup (Py.lit "scripts")) as [l3 H3];
    [unfold asset_categories; set_solver|].
  unfold_scrape.
  rewrite Hload, Hget, Hsucc, Hsoup, Hbase, Hshot, Hsave, H1, H2, H3.
  eexists. split; [reflexivity|]. by repeat split.
Qed.

(** Every run either leaves the file as it was, or leaves a truncated file,
    or is a run as in [scrape_website_saved]. *)
Lemma scrape_website_inv (env : ScrapeEnv) (request_url : str)
    (f : store_file) :
  (snd (scrape_website env request_url f) = f
   /\ is_ok (fst (scrape_website env request_url f)) = false)
  \/ (snd (scrape_website env request_url f)
      = Content (InvalidJSON (Py.lit "truncated"))
      /\ is_ok (fst (scrape_website env request_url f)) = false)
  \/ (exists d0 res soup base shot,
        load_scraped_data f = Ok d0
        /\ client_get env request_url = Ok res
        /\ is_success res = true
        /\ BeautifulSoup env (text res) = Ok soup
        /\ httpx_URL env request_url = Ok base
        /\ take_screenshot env request_url (normalize_url_id request_url)
           = Ok shot
        /\ store_write env = Saved).
Proof.
  destruct (load_scraped_data f) as [d0|e0] eqn:Hload;
    [|left; unfold_scrape; by rewrite Hload].
  destruct (client_get env request_url) as [res|e1] eqn:Hget;
    [|left; unfold_scrape; by rewrite Hload, Hget].
  destruct (is_success res) eqn:Hsucc;
    [|left; unfold_scrape; by rewrite Hload, Hget, Hsucc].
  destruct (BeautifulSoup env (text res)) as [soup|e2] eqn:Hsoup;
    [|left; unfold_scrape; by rewrite Hload, Hget, Hsucc, Hsoup].
  destruct (httpx_URL env request_url) as [base|e3] eqn:Hbase;
    [|left; unfold_scrape; by rewrite Hload, Hget, Hsucc, Hsoup, Hbase].
  destruct (take_screenshot env request_url (normalize_url_id request_url))
    as [shot|e4] eqn:Hshot;
    [|left; unfold_scrape; by rewrite Hload, Hget, Hsucc, Hsoup, Hbase, Hshot].
  destruct (store_write env) as [|msg|msg] eqn:Hsave.
  - right; right. by exists d0, res, soup, base, shot.
  - left. unfold_scrape.
    by rewrite Hload, Hget, Hsucc, Hsoup, Hbase, Hshot, Hsave.
  - right; left. unfold_scrape.
    by rewrite Hload, Hget, Hsucc, Hsoup, Hbase, Hshot, Hsave.
Qed.

(** With the browser session in order, the screenshot step never raises:
    it yields the path when navigation and capture return, and [None]
    otherwise. *)
Lemma take_screenshot_best_effort (env : ScrapeEnv) (request_url url_id : str) :
  is_ok (playwright_start env) = true ->
  is_ok (chromium_launch env) = true ->
  is_ok (browser_new_page env) = true ->
  is_ok (browser_close env) = true ->
  is_ok (playwright_stop env) = true ->
  take_screenshot env request_url url_id
  = Ok (if is_ok (page_goto env request_url)
           && is_ok (page_screenshot env
                       (Py.path_join SCREENSHOTS_DIR (url_id ++ Py.lit ".png")))
        then Some (Py.lit "/public/screenshots/" ++ url_id ++ Py.lit ".png")
        else None).
Proof.
  unfold take_screenshot, with_playwright, rbind, try_except.
  destruct (playwright_start env); [|done].
  destruct (chromium_launch env); [|done].
  destruct (browser_new_page env); [|done].
  destruct (browser_close env); [|done].
  destruct (playwright_stop env); [|done].
  intros _ _ _ _ _.
  destruct (page_goto env request_url); [|done].
  by destruct (page_screenshot env _).
Qed.

(** C3, as stated, fails: fetch, parse and asset resolution succeed, the
    browser cannot be launched, so no screenshot is captured, and the
    request ends in an error with nothing stored. *)
Lemma scrape_launch_failure :
  let env :=
    example_env (Ok example_page) (Ok example_soup)
      (Raise (Error (Py.lit "BrowserType.launch: executable not found")))
      (Ok tt) (Ok tt) Saved in
  client_get env example_url = Ok example_page
  /\ is_success example_page = true
  /\ BeautifulSoup env (text example_page) = Ok example_soup
  /\ is_ok (take_screenshot env example_url (normalize_url_id example_url))
     = false
  /\ scrape_website env example_url NoFile
     = (Raise (HTTPException 500
                 (Py.lit "An unexpected error occurred: BrowserType.launch: executable not found")),
        NoFile).
Proof. cbv zeta. by vm_compute. Qed.

(** C3, amended.  When the store loads, fetch, parse and asset resolution
    succeed, the browser session starts, opens a page and shuts down
    without error, the navigation or the screenshot raises, and the store
    file is rewritten, the scrape completes: the result has the success
    flag and no screenshot URL, and the stored record has [html_content]
    present and [screenshot_path] absent. *)
Theorem scrape_survives_capture_failure (env : ScrapeEnv) (request_url : str)
    (f : store_file) (d0 : Store) (res : Response) (soup : Soup) (base : str) :
  load_scraped_data f = Ok d0 ->
  client_get env request_url = Ok res ->
  is_success res = true ->
  BeautifulSoup env (text res) = Ok soup ->
  httpx_URL env request_url = Ok base ->
  is_ok (playwright_start env) = true ->
  is_ok (chromium_launch env) = true ->
  is_ok (browser_new_page env) = true ->
  capture_raises env request_url (normalize_url_id request_url) ->
  is_ok (browser_close env) = true ->
  is_ok (playwright_stop env) = true ->
  store_write env = Saved ->
  exists summary entry,
    scrape_website env request_url f
    = (Ok summary,
       Content (Document (<[normalize_url_id request_url := entry]> d0)))
    /\ summary_success summary = true
    /\ screenshot_url summary = None
    /\ html_content entry = Some (text res)
    /\ screenshot_path entry = None.
Proof.
  intros Hload Hget Hsucc Hsoup Hbase Hstart Hlaunch Hpage Hcap Hclose Hstop
    Hsave.
  pose proof (take_screenshot_best_effort env request_url
                (normalize_url_id request_url) Hstart Hlaunch Hpage Hclose
                Hstop) as Hshot.
  assert (is_ok (page_goto env request_url)
          && is_ok (page_screenshot env
                      (Py.path_join SCREENSHOTS_DIR
                         (normalize_url_id request_url ++ Py.lit ".png")))
          = false) as Hnone.
  { destruct Hcap as [-> | ->]; [done | apply andb_false_r]. }
  rewrite Hnone in Hshot.
  destruct (scrape_website_saved env request_url f d0 res soup base None
              Hload Hget Hsucc Hsoup Hbase Hshot Hsave)
    as (summary & Heq & Hs & _ & Hu).
  by exists summary, (scraped_entry env request_url res soup base None).
Qed.

Lemma scrape_survives_capture_failure_witness :
  let env :=
    example_env (Ok example_page) (Ok example_soup) (Ok tt)
      (Raise (Error (Py.lit "Timeout 90000ms exceeded"))) (Ok tt) Saved in
  exists summary entry,
    scrape_website env example_url NoFile
    = (Ok summary,
       Content (Document (<[normalize_url_id example_url := entry]> ∅)))
    /\ summary_success summary = true
    /\ screenshot_url summary = None
    /\ html_content entry = Some (text example_page)
    /\ screenshot_path entry = None.
Proof.
  cbv zeta.
  apply (scrape_survives_capture_failure _ example_url NoFile ∅ example_page
           example_soup example_url); try reflexivity.
  left. reflexivity.
Defined.

(** C4.  A scrape that fails with a transport error, an HTTP-status error
    or a parse error surfaces an error to the caller (the [HTTPException]
    that the matching [except] clause builds) and leaves the store file as it
    was: nothing is written on these paths. *)
Theorem scrape_failure_leaves_store (env : ScrapeEnv) (request_url : str)
    (f : store_file) (cause : exn) :
  fetch_or_parse_fails env request_url cause ->
  snd (scrape_website env request_url f) = f
  /\ fst (scrape_website env request_url f)
     = Raise (match load_scraped_data f with
              | Ok _ => scrape_handler request_url cause
              | Raise e0 => e0
              end)
  /\ exists status detail,
       scrape_handler request_url cause = HTTPException status detail.
Proof.
  intros Hfail.
  assert (scrape_website env request_url f
          = (Raise (match load_scraped_data f with
                    | Ok _ => scrape_handler request_url cause
                    | Raise e0 => e0
                    end), f)) as Heq.
  { unfold_scrape. destruct (load_scraped_data f) as [d0|e0]; [|done].
    destruct Hfail as [msg Hget | res Hget Hsucc | res e Hget Hsucc Hsoup].
    - by rewrite Hget.
    - by rewrite Hget, Hsucc.
    - by rewrite Hget, Hsucc, Hsoup. }
  rewrite Heq. split; [done|]. split; [done|].
  destruct cause; cbn; eauto.
Qed.

Lemma scrape_failure_leaves_store_witness :
  let env :=
    example_env (Ok example_not_found) (Ok example_soup) (Ok tt) (Ok tt)
      (Ok tt) Saved in
  let f := Content (Document ∅) in
  let cause := HTTPStatusError (Py.lit "status error") example_not_found in
  snd (scrape_website env example_url f) = f
  /\ fst (scrape_website env example_url f)
     = Raise (HTTPException 404
                (Py.lit "HTTP error 404 occurred while fetching https://www.example.com/a?b=1: Not Found"))
  /\ exists status detail,
       scrape_handler example_url cause = HTTPException status detail.
Proof.
  cbv zeta.
  exact (scrape_failure_leaves_store
           (example_env (Ok example_not_found) (Ok example_soup) (Ok tt)
              (Ok tt) (Ok tt) Saved)
           example_url (Content (Document ∅))
           (HTTPStatusError (Py.lit "status error") example_not_found)
           (status_error
              (example_env (Ok example_not_found) (Ok example_soup) (Ok tt)
                 (Ok tt) (Ok tt) Saved)
              example_url example_not_found eq_refl eq_refl)).
Defined.

(** *** The asset resolver *)

Lemma is_inline_ref_spec (src : str) :
  is_inline_ref src = true
  <-> (exists t, src = Py.lit "data:" ++ t) \/ (exists t, src = Py.lit "#" ++ t).
Proof.
  unfold is_inline_ref. by rewrite orb_true_iff, !startswith_spec.
Qed.

(** One loop appends to its category the URLs of [resolved_urls]. *)
Lemma foldl_resolve_one (env : ScrapeEnv) (base key : str)
    (srcs : list str) (a : gmap str (list str)) (l0 : list str) :
  a !! key = Some l0 ->
  foldl (resolve_one env base key) a srcs
  = <[key := l0 ++ resolved_urls env base srcs]> a.
Proof.
  revert a l0. induction srcs as [|src srcs IH]; intros a l0 Ha.
  - cbn. rewrite app_nil_r. by rewrite insert_id.
  - cbn [foldl]. unfold resolved_urls. cbn [omap list_omap].
    fold (resolved_urls env base srcs).
    unfold resolve_one at 2, assets_append, getitem, rbind.
    destruct (is_inline_ref src); cbn [negb]; [by apply IH|].
    destruct (URL_join env base src) as [u|e]; [|by apply IH].
    rewrite Ha.
    rewrite (IH _ (l0 ++ [u])); [|by rewrite lookup_insert_eq].
    by rewrite insert_insert_eq, <- app_assoc.
Qed.

Lemma scrape_assets_eq (env : ScrapeEnv) (base : str) (soup : Soup) :
  scrape_assets env base soup
  = <[Py.lit "scripts" := resolved_urls env base (script_src soup)]>
    (<[Py.lit "stylesheets" := resolved_urls env base (stylesheet_href soup)]>
    (<[Py.lit "images" := resolved_urls env base (img_src soup)]>
       empty_assets)).
Proof.
  unfold scrape_assets.
  rewrite (foldl_resolve_one _ _ (Py.lit "images") _ _ []); [|done].
  rewrite (foldl_resolve_one _ _ (Py.lit "stylesheets") _ _ []).
  2:{ by rewrite lookup_insert_ne. }
  rewrite (foldl_resolve_one _ _ (Py.lit "scripts") _ _ []); [done|].
  by rewrite !lookup_insert_ne.
Qed.

Lemma elem_of_resolved_urls (env : ScrapeEnv) (base : str) (srcs : list str)
    (u : str) :
  u ∈ resolved_urls env base srcs
  <-> exists src, src ∈ srcs /\ is_inline_ref src = false
                 /\ URL_join env base src = Ok u.
Proof.
  unfold resolved_urls. rewrite list_elem_of_omap. split.
  - intros (src & Hin & Hsrc). exists src.
    destruct (is_inline_ref src); [done|].
    destruct (URL_join env base src); by simplify_eq.
  - intros (src & Hin & Hinl & Hjoin). exists src. by rewrite Hinl, Hjoin.
Qed.

Lemma resolved_urls_skip (env : ScrapeEnv) (base : str)
    (before after : list str) (src : str) :
  is_inline_ref src = true ->
  resolved_urls env base (before ++ src :: after)
  = resolved_urls env base (before ++ after).
Proof.
  intros Hinl. unfold resolved_urls.
  induction before as [|x before IH]; cbn.
  - by rewrite Hinl.
  - by rewrite IH.
Qed.

(** C7.  The asset resolver emits no URL for a source value that begins
    with [data:] or [#]: each category holds the resolved URLs of the
    values that begin with neither, in document order; every URL in the
    mapping is the resolution of such a value; and an element whose value
    begins with [data:] or [#] adds nothing to the mapping. *)
Theorem asset_resolver_skips_inline (env : ScrapeEnv) (base : str)
    (soup : Soup) :
  let assets := scrape_assets env base soup in
  (assets !! Py.lit "images" = Some (resolved_urls env base (img_src soup))
   /\ assets !! Py.lit "stylesheets"
      = Some (resolved_urls env base (stylesheet_href soup))
   /\ assets !! Py.lit "scripts"
      = Some (resolved_urls env base (script_src soup)))
  /\ (forall srcs u,
        u ∈ resolved_urls env base srcs ->
        exists src,
          src ∈ srcs
          /\ ~ (exists t, src = Py.lit "data:" ++ t)
          /\ ~ (exists t, src = Py.lit "#" ++ t)
          /\ URL_join env base src = Ok u)
  /\ (forall before src after,
        (exists t, src = Py.lit "data:" ++ t)
        \/ (exists t, src = Py.lit "#" ++ t) ->
        resolved_urls env base (before ++ src :: after)
        = resolved_urls env base (before ++ after)).
Proof.
  cbv zeta. split; [|split].
  - rewrite scrape_assets_eq. split; [|split].
    + rewrite 2!lookup_insert_ne by done. apply lookup_insert_eq.
    + rewrite lookup_insert_ne by done. apply lookup_insert_eq.
    + apply lookup_insert_eq.
  - intros srcs u (src & Hin & Hinl & Hjoin)%elem_of_resolved_urls.
    exists src. split; [done|].
    assert (~ is_inline_ref src = true) as Hno by congruence.
    rewrite is_inline_ref_spec in Hno. tauto.
  - intros before src after Hsrc. apply resolved_urls_skip.
    by apply is_inline_ref_spec.
Qed.

Lemma asset_resolver_skips_inline_witness :
  let env :=
    example_env (Ok example_page) (Ok example_soup) (Ok tt) (Ok tt) (Ok tt)
      Saved in
  scrape_assets env example_url example_soup !! Py.lit "images"
  = Some [example_url ++ Py.lit "img/x.png"]
  /\ resolved_urls env example_url
       ([] ++ Py.lit "data:image/png;base64,AAAA" :: [Py.lit "img/x.png"])
     = resolved_urls env example_url ([] ++ [Py.lit "img/x.png"]).
Proof.
  cbv zeta.
  pose proof (asset_resolver_skips_inline
                (example_env (Ok example_page) (Ok example_soup) (Ok tt)
                   (Ok tt) (Ok tt) Saved)
                example_url example_soup) as (Himg & _ & Hskip).
  split.
  - exact (proj1 Himg).
  - apply Hskip. left. by exists (Py.lit "image/png;base64,AAAA").
Defined.

(** *** The records in the store *)

Lemma store_of_document (d : Store) : store_of (Content (Document d)) = d.
Proof. done. Qed.

Lemma store_of_load (f : store_file) (d : Store) :
  load_scraped_data f = Ok d -> store_of f = d.
Proof. unfold store_of. by intros ->. Qed.

(** The file after a request, in terms of the store before it. *)
Lemma scrape_website_store (env : ScrapeEnv) (request_url : str)
    (f : store_file) :
  let f' := snd (scrape_website env request_url f) in
  (is_ok (fst (scrape_website env request_url f)) = false
   /\ (f' = f \/ f' = Content (InvalidJSON (Py.lit "truncated"))))
  \/ (exists summary res soup base shot,
        fst (scrape_website env request_url f) = Ok summary
        /\ is_ok (load_scraped_data f) = true
        /\ f' = Content (Document
                  (<[normalize_url_id request_url :=
                       scraped_entry env request_url res soup base shot]>
                     (store_of f)))).
Proof.
  cbv zeta.
  destruct (scrape_website_inv env request_url f)
    as [[Hf Hr] | [[Hf Hr] | (d0 & res & soup & base & shot & Hload & Hget
                              & Hsucc & Hsoup & Hbase & Hshot & Hsave)]].
  - left. eauto.
  - left. eauto.
  - right.
    destruct (scrape_website_saved env request_url f d0 res soup base shot
                Hload Hget Hsucc Hsoup Hbase Hshot Hsave)
      as (summary & Heq & _).
    exists summary, res, soup, base, shot. rewrite Heq, Hload. cbn.
    by rewrite (store_of_load f d0 Hload).
Qed.

Lemma scraped_entry_assets_complete (env : ScrapeEnv) (request_url : str)
    (res : Response) (soup : Soup) (base : str) (shot : option str) :
  assets_complete (scraped_entry env request_url res soup base shot).
Proof.
  exists (scrape_assets env base soup). split; [done|].
  apply scrape_assets_dom.
Qed.

(** A successful request puts its record under the normalized id; the
    record is the one the same request writes into an absent store. *)
Lemma scrape_website_overwrites (env : ScrapeEnv) (request_url : str)
    (f : store_file) (summary : ScrapeSummary) :
  fst (scrape_website env request_url f) = Ok summary ->
  exists entry,
    store_of (snd (scrape_website env request_url f))
    = <[normalize_url_id request_url := entry]> (store_of f)
    /\ store_of (snd (scrape_website env request_url NoFile))
       = {[ normalize_url_id request_url := entry ]}.
Proof.
  intros Hok.
  destruct (scrape_website_inv env request_url f)
    as [[_ Hr] | [[_ Hr] | (d0 & res & soup & base & shot & Hload & Hget
                            & Hsucc & Hsoup & Hbase & Hshot & Hsave)]].
  - by rewrite Hok in Hr.
  - by rewrite Hok in Hr.
  - exists (scraped_entry env request_url res soup base shot).
    destruct (scrape_website_saved env request_url f d0 res soup base shot
                Hload Hget Hsucc Hsoup Hbase Hshot Hsave) as (s1 & -> & _).
    destruct (scrape_website_saved env request_url NoFile ∅ res soup base
                shot eq_refl Hget Hsucc Hsoup Hbase Hshot Hsave)
      as (s2 & -> & _).
    cbn [snd]. rewrite !store_of_document, (store_of_load f d0 Hload).
    by rewrite insert_empty.
Qed.

Lemma scrape_website_dom (env : ScrapeEnv) (request_url : str)
    (f : store_file) :
  dom (store_of (snd (scrape_website env request_url f)))
  ⊆ dom (store_of f) ∪ {[ normalize_url_id request_url ]}.
Proof.
  destruct (scrape_website_store env request_url f)
    as [[_ [-> | ->]] | (s & res & soup & base & shot & _ & _ & ->)].
  - set_solver.
  - unfold store_of. cbn. set_solver.
  - rewrite store_of_document, dom_insert_L. set_solver.
Qed.

(** The ids under which a sequence of requests can write. *)
Lemma run_scrapes_dom (requests : list (ScrapeEnv * str)) (f : store_file) :
  dom (store_of (run_scrapes requests f))
  ⊆ dom (store_of f)
    ∪ list_to_set ((fun r => normalize_url_id (snd r)) <$> requests).
Proof.
  revert f. induction requests as [|[env request_url] requests IH]; intros f.
  - cbn. set_solver.
  - unfold run_scrapes. cbn [foldl]. fold (run_scrapes requests).
    etrans; [apply IH|].
    pose proof (scrape_website_dom env request_url f) as Hstep.
    rewrite fmap_cons. cbn [snd]. rewrite list_to_set_cons.
    revert Hstep.
    generalize (dom (store_of (snd (scrape_website env request_url f)))).
    generalize (dom (store_of f)).
    generalize (list_to_set ((fun r => normalize_url_id (snd r)) <$> requests)
                : gset str).
    generalize (normalize_url_id request_url).
    clear. intros i L B A Hstep. set_solver.
Qed.

(** C8.  A successful scrape stores its record under the normalized id
    and replaces what was there: the store after it is the store before it
    with that one key set to the record that the same scrape writes into
    an empty store, so nothing of a prior record is kept, and when the id
    was present the set of ids is as before.  Over any sequence of scrapes
    the ids of the store are among those it had and the normalized ids of
    the scraped URLs, and no id is listed twice. *)
Theorem store_one_record_per_id :
  (forall env request_url f summary,
      fst (scrape_website env request_url f) = Ok summary ->
      let f' := snd (scrape_website env request_url f) in
      (exists entry,
          store_of f' = <[normalize_url_id request_url := entry]> (store_of f)
          /\ store_of (snd (scrape_website env request_url NoFile))
             = {[ normalize_url_id request_url := entry ]})
      /\ (normalize_url_id request_url ∈ dom (store_of f) ->
          dom (store_of f') = dom (store_of f)
          /\ size (store_of f') = size (store_of f)))
  /\ (forall requests f,
        let f' := run_scrapes requests f in
        dom (store_of f')
        ⊆ dom (store_of f)
          ∪ list_to_set ((fun r => normalize_url_id (snd r)) <$> requests)
        /\ NoDup (map_to_list (store_of f')).*1).
Proof.
  split.
  - intros env request_url f summary Hok. cbv zeta.
    destruct (scrape_website_overwrites env request_url f summary Hok)
      as (entry & Hf & Hnew).
    split; [by exists entry|].
    intros Hin. rewrite Hf.
    assert (dom (<[normalize_url_id request_url := entry]> (store_of f))
            = dom (store_of f)) as Hdom.
    { rewrite dom_insert_L. set_solver. }
    split; [done|]. by rewrite <- !size_dom, Hdom.
  - intros requests f. cbv zeta. split.
    + apply run_scrapes_dom.
    + apply NoDup_fst_map_to_list.
Qed.

Lemma store_one_record_per_id_witness :
  let env :=
    example_env (Ok example_page) (Ok example_soup) (Ok tt) (Ok tt) (Ok tt)
      Saved in
  let f := snd (scrape_website env (Py.lit "http://example.com/a?b=1") NoFile) in
  normalize_url_id example_url ∈ dom (store_of f)
  /\ dom (store_of (snd (scrape_website env example_url f)))
     = dom (store_of f)
  /\ size (store_of (snd (scrape_website env example_url f)))
     = size (store_of f).
Proof.
  cbv zeta.
  assert (normalize_url_id example_url
          ∈ dom (store_of
                   (snd (scrape_website
                           (example_env (Ok example_page) (Ok example_soup)
                              (Ok tt) (Ok tt) (Ok tt) Saved)
                           (Py.lit "http://example.com/a?b=1") NoFile))))
    as Hin.
  { apply elem_of_dom. vm_compute. eauto. }
  split; [exact Hin|].
  destruct store_one_record_per_id as [Hstep _].
  eapply Hstep; [|exact Hin]. vm_compute. reflexivity.
Defined.

(** C10.  The store file after a request is the file before it, or a
    truncated file, or the store before it with the new record under the
    normalized id, and that record has an [assets] mapping whose keys are
    exactly [images], [stylesheets] and [scripts]; the three keys are there
    with empty lists when the document has no such element; and over any
    sequence of requests every stored record keeps exactly these three
    categories. *)
Theorem stored_records_have_three_categories :
  (forall env request_url f,
      let f' := snd (scrape_website env request_url f) in
      f' = f
      \/ f' = Content (InvalidJSON (Py.lit "truncated"))
      \/ exists entry a,
           f' = Content (Document
                   (<[normalize_url_id request_url := entry]> (store_of f)))
           /\ assets entry = Some a
           /\ dom a = {[ Py.lit "images"; Py.lit "stylesheets";
                         Py.lit "scripts" ]})
  /\ (forall env base soup,
        img_src soup = [] -> stylesheet_href soup = [] ->
        script_src soup = [] ->
        scrape_assets env base soup
        = <[Py.lit "images" := []]>
          (<[Py.lit "stylesheets" := []]> (<[Py.lit "scripts" := []]> ∅)))
  /\ (forall requests f,
        map_Forall (fun _ => assets_complete) (store_of f) ->
        map_Forall (fun _ => assets_complete)
          (store_of (run_scrapes requests f))).
Proof.
  assert (forall env request_url f,
             map_Forall (fun _ => assets_complete) (store_of f) ->
             map_Forall (fun _ => assets_complete)
               (store_of (snd (scrape_website env request_url f)))) as Hstep.
  { intros env request_url f Hf.
    destruct (scrape_website_store env request_url f)
      as [[_ [-> | ->]] | (s & res & soup & base & shot & _ & _ & ->)].
    - done.
    - apply map_Forall_empty.
    - rewrite store_of_document. apply map_Forall_insert_2; [|done].
      apply scraped_entry_assets_complete. }
  split; [|split].
  - intros env request_url f. cbv zeta.
    destruct (scrape_website_store env request_url f)
      as [[_ [-> | ->]] | (s & res & soup & base & shot & _ & _ & ->)];
      [by left | by right; left |].
    right; right.
    exists (scraped_entry env request_url res soup base shot),
      (scrape_assets env base soup).
    split; [done|]. split; [done|]. apply scrape_assets_dom.
  - intros env base soup H1 H2 H3. unfold scrape_assets.
    by rewrite H1, H2, H3.
  - intros requests. induction requests as [|[env request_url] requests IH];
      intros f Hf; [done|].
    unfold run_scrapes. cbn [foldl]. apply IH, Hstep, Hf.
Qed.

Lemma stored_records_have_three_categories_witness :
  let env :=
    example_env (Ok example_page) (Ok example_soup) (Ok tt)
      (Raise (Error (Py.lit "Timeout 90000ms exceeded"))) (Ok tt) Saved in
  map_Forall (fun _ => assets_complete)
    (store_of (run_scrapes [(env, example_url)] NoFile)).
Proof.
  cbv zeta. apply stored_records_have_three_categories.
  intros k r Hk. vm_compute in Hk. discriminate Hk.
Defined.

(** The request reads the file through [load_scraped_data] only. *)
Lemma scrape_website_load_eq (env : ScrapeEnv) (request_url : str)
    (f1 f2 : store_file) :
  load_scraped_data f1 = load_scraped_data f2 ->
  fst (scrape_website env request_url f1)
  = fst (scrape_website env request_url f2)
  /\ (is_ok (fst (scrape_website env request_url f1)) = true ->
      snd (scrape_website env request_url f1)
      = snd (scrape_website env request_url f2)).
Proof.
  intros Hload. unfold_scrape. rewrite Hload.
  destruct (load_scraped_data f2) as [d0|e0]; [|done].
  destruct (client_get env request_url) as [res|e1]; [|done].
  destruct (is_success res); [|done].
  destruct (BeautifulSoup env (text res)) as [soup|e2]; [|done].
  destruct (httpx_URL env request_url) as [base|e3]; [|done].
  destruct (take_screenshot env request_url (normalize_url_id request_url))
    as [shot|e4]; [|done].
  destruct (store_write env); [|done|done].
  destruct (getitem _ (Py.lit "images")); [|done].
  destruct (getitem _ (Py.lit "stylesheets")); [|done].
  by destruct (getitem _ (Py.lit "scripts")).
Qed.

End Scrape.
(** *** White space *)

Lemma startswith_app (q s w : str) :
  Py.startswith q s = true -> Py.startswith q (s ++ w) = true.
Proof.
  rewrite !startswith_spec. intros [t ->]. exists (t ++ w).
  by rewrite app_assoc.
Qed.

Lemma endswith_spec (q s : str) :
  Py.endswith q s = true <-> exists t, s = t ++ q.
Proof.
  unfold Py.endswith. rewrite startswith_spec. split.
  - intros [t Ht]. exists (reverse t).
    apply (inj reverse). by rewrite Ht, reverse_app, reverse_involutive.
  - intros [t ->]. exists (reverse t). by rewrite reverse_app.
Qed.

Lemma lstrip_head (s : str) :
  Py.lstrip s = []
  \/ exists c t, Py.lstrip s = c :: t /\ Py.isspace c = false.
Proof.
  induction s as [|c s IH]; [by left|].
  cbn. destruct (Py.isspace c) eqn:E; [done|]. right. eauto.
Qed.

Lemma lstrip_suffix (s : str) : exists w, s = w ++ Py.lstrip s.
Proof.
  induction s as [|c s [w IH]]; [by exists []|].
  cbn. destruct (Py.isspace c).
  - exists (c :: w). cbn. by rewrite <- IH.
  - by exists [].
Qed.

Lemma rstrip_prefix (s : str) : exists w, s = Py.rstrip s ++ w.
Proof.
  unfold Py.rstrip. destruct (lstrip_suffix (reverse s)) as [w Hw].
  exists (reverse w). apply (inj reverse).
  by rewrite reverse_app, !reverse_involutive.
Qed.

Lemma lstrip_snoc (l : str) (c : N) :
  Py.isspace c = false -> exists l', Py.lstrip (l ++ [c]) = l' ++ [c].
Proof.
  intros Hc. induction l as [|x l [l' IH]]; cbn.
  - rewrite Hc. by exists [].
  - destruct (Py.isspace x); [by exists l'|]. by exists (x :: l).
Qed.

Lemma rstrip_cons (c : N) (t : str) :
  Py.isspace c = false -> exists t', Py.rstrip (c :: t) = c :: t'.
Proof.
  intros Hc. unfold Py.rstrip. rewrite reverse_cons.
  destruct (lstrip_snoc (reverse t) c Hc) as [l' ->].
  exists (reverse l'). by rewrite reverse_app.
Qed.

(** A stripped text has no white space in front. *)
Lemma lstrip_strip (s : str) : Py.lstrip (Py.strip s) = Py.strip s.
Proof.
  unfold Py.strip. destruct (lstrip_head s) as [-> | (c & t & -> & Hc)];
    [done|].
  destruct (rstrip_cons c t Hc) as [t' ->]. cbn. by rewrite Hc.
Qed.

Lemma startswith_strip (q s : str) :
  Py.startswith q (Py.strip s) = true -> Py.startswith q (Py.lstrip s) = true.
Proof.
  unfold Py.strip. intros H. destruct (rstrip_prefix (Py.lstrip s)) as [w ->].
  by apply startswith_app.
Qed.

Lemma slice_to_end_app (a b : nat) (front inner back : str) :
  length front = a -> length back = b ->
  Py.slice_to_end a b (front ++ inner ++ back) = inner.
Proof.
  intros <- <-. unfold Py.slice_to_end.
  rewrite !length_app.
  replace (length front + (length inner + length back) - length back)
    with (length (front ++ inner)) by (rewrite length_app; lia).
  rewrite app_assoc, take_app_length. by rewrite drop_app_length.
Qed.

(** ** The clone endpoint *)

Section Clone.

Lemma strip_fences_html (inner : str) :
  strip_fences (FENCE_HTML ++ inner ++ FENCE) = Py.strip inner.
Proof.
  unfold strip_fences.
  assert (Py.startswith FENCE_HTML (FENCE_HTML ++ inner ++ FENCE) = true)
    as -> by (apply startswith_spec; eauto).
  assert (Py.endswith FENCE (FENCE_HTML ++ inner ++ FENCE) = true) as ->.
  { apply endswith_spec. exists (FENCE_HTML ++ inner). by rewrite app_assoc. }
  cbn [andb]. by rewrite slice_to_end_app.
Qed.

Lemma strip_fences_plain (inner : str) :
  Py.startswith FENCE_HTML (FENCE ++ inner ++ FENCE) = false ->
  strip_fences (FENCE ++ inner ++ FENCE) = Py.strip inner.
Proof.
  intros Hno. unfold strip_fences. rewrite Hno.
  assert (Py.startswith FENCE (FENCE ++ inner ++ FENCE) = true)
    as -> by (apply startswith_spec; eauto).
  assert (Py.endswith FENCE (FENCE ++ inner ++ FENCE) = true) as ->.
  { apply endswith_spec. exists (FENCE ++ inner). by rewrite app_assoc. }
  cbn [andb]. by rewrite slice_to_end_app.
Qed.

(** The text after the fence tests is the input itself, or a stripped
    text. *)
Lemma strip_fences_cases (raw : str) :
  strip_fences raw = raw \/ exists inner, strip_fences raw = Py.strip inner.
Proof.
  unfold strip_fences. repeat case_match; eauto.
Qed.

Lemma clean_cloned_html_cases (raw : str) :
  Py.startswith DOCTYPE (Py.strip (strip_fences raw)) = false
  /\ clean_cloned_html raw = DOCTYPE ++ [10%N] ++ strip_fences raw
  \/ Py.startswith DOCTYPE (Py.strip (strip_fences raw)) = true
     /\ clean_cloned_html raw = strip_fences raw.
Proof.
  unfold clean_cloned_html.
  destruct (Py.startswith DOCTYPE (Py.strip (strip_fences raw))); cbn [negb];
    [by right | by left].
Qed.

Lemma clean_cloned_html_lstrip (raw : str) :
  Py.startswith DOCTYPE (Py.lstrip (clean_cloned_html raw)) = true.
Proof.
  destruct (clean_cloned_html_cases raw) as [[_ ->] | [H ->]].
  - apply startswith_spec. by exists ([10%N] ++ strip_fences raw).
  - by apply startswith_strip.
Qed.

(** After a fence was taken off, the result begins with the declaration. *)
Lemma clean_cloned_html_stripped (raw inner : str) :
  strip_fences raw = Py.strip inner ->
  Py.startswith DOCTYPE (clean_cloned_html raw) = true.
Proof.
  intros Hs. pose proof (clean_cloned_html_lstrip raw) as H.
  destruct (clean_cloned_html_cases raw) as [[_ Heq] | [_ Heq]].
  - rewrite Heq. apply startswith_spec. eauto.
  - rewrite Heq in *. rewrite Hs in *. by rewrite lstrip_strip in H.
Qed.

(** C5.  On a store that loads, a clone request for an id that is not in
    the store fails with status 404, and a request for a record whose
    [html_content] and [screenshot_path] are both absent fails with status
    400; in both cases no request has been sent to the model. *)
Theorem clone_rejects_before_model_call (env : CloneEnv) (url_id : str)
    (f : store_file) (scraped_data : Store) :
  load_scraped_data f = Ok scraped_data ->
  (scraped_data !! url_id = None ->
   clone_website_with_llm env url_id f
   = (Raise (HTTPException 404
               (Py.lit "Scraped data not found for this URL ID.")), []))
  /\ (forall data,
        scraped_data !! url_id = Some data ->
        html_content data = None ->
        screenshot_path data = None ->
        clone_website_with_llm env url_id f
        = (Raise (HTTPException 400
                    (Py.lit "No HTML content or screenshot available for cloning.")),
           [])).
Proof.
  intros Hload. unfold clone_website_with_llm. rewrite Hload. split.
  - by intros ->.
  - intros data -> -> ->. done.
Qed.

Lemma clone_rejects_before_model_call_witness :
  let env := example_clone_env (Ok [TextAnswer (Py.lit "<p>hello</p>")]) in
  let f := Content (Document example_store) in
  clone_website_with_llm env (Py.lit "never_scraped") f
  = (Raise (HTTPException 404
              (Py.lit "Scraped data not found for this URL ID.")), [])
  /\ clone_website_with_llm env (Py.lit "example_com") f
     = (Raise (HTTPException 400
                 (Py.lit "No HTML content or screenshot available for cloning.")),
        []).
Proof.
  cbv zeta.
  destruct (clone_rejects_before_model_call
              (example_clone_env (Ok [TextAnswer (Py.lit "<p>hello</p>")]))
              (Py.lit "never_scraped") (Content (Document example_store))
              example_store eq_refl) as [H404 _].
  destruct (clone_rejects_before_model_call
              (example_clone_env (Ok [TextAnswer (Py.lit "<p>hello</p>")]))
              (Py.lit "example_com") (Content (Document example_store))
              example_store eq_refl) as [_ H400].
  split.
  - apply H404. vm_compute. reflexivity.
  - apply (H400 example_empty_record); vm_compute; reflexivity.
Defined.

(** C6, as stated, fails: the text is not fenced and has a line break
    before the declaration; it is returned as it is, so the result does not
    begin with the declaration, and nothing is prepended although the text
    does not begin with it. *)
Lemma clean_cloned_html_leading_newline :
  let raw := 10%N :: Py.lit "<!DOCTYPE html><html></html>" in
  strip_fences raw = raw
  /\ Py.startswith DOCTYPE (strip_fences raw) = false
  /\ clean_cloned_html raw = raw
  /\ Py.startswith DOCTYPE (clean_cloned_html raw) = false.
Proof. cbv zeta. by vm_compute. Qed.

(** C6, amended.  For every text of the model the validator returns a
    string that begins with the declaration once leading white space is
    passed over.  A text wrapped in a fence, with the [html] tag or without
    a tag, loses the fence markers and the white space around what they
    enclose, and the result then begins with the declaration.  When the
    text after the fence tests, white space at its ends aside, does not
    begin with the declaration, the declaration and a line break are put
    in front of it once; otherwise the text is returned as it is. *)
Theorem clean_cloned_html_contract (raw : str) :
  Py.startswith DOCTYPE (Py.lstrip (clean_cloned_html raw)) = true
  /\ (forall inner,
        raw = FENCE_HTML ++ inner ++ FENCE ->
        strip_fences raw = Py.strip inner
        /\ Py.startswith DOCTYPE (clean_cloned_html raw) = true)
  /\ (forall inner,
        raw = FENCE ++ inner ++ FENCE ->
        Py.startswith FENCE_HTML raw = false ->
        strip_fences raw = Py.strip inner
        /\ Py.startswith DOCTYPE (clean_cloned_html raw) = true)
  /\ (Py.startswith DOCTYPE (Py.strip (strip_fences raw)) = false ->
      clean_cloned_html raw = DOCTYPE ++ [10%N] ++ strip_fences raw)
  /\ (Py.startswith DOCTYPE (Py.strip (strip_fences raw)) = true ->
      clean_cloned_html raw = strip_fences raw).
Proof.
  split; [apply clean_cloned_html_lstrip|]. split; [|split; [|split]].
  - intros inner ->. pose proof (strip_fences_html inner) as Hs.
    split; [done|]. by eapply clean_cloned_html_stripped.
  - intros inner -> Hno. pose proof (strip_fences_plain inner Hno) as Hs.
    split; [done|]. by eapply clean_cloned_html_stripped.
  - intros H. destruct (clean_cloned_html_cases raw) as [[_ ->] | [H' _]];
      [done | congruence].
  - intros H. destruct (clean_cloned_html_cases raw) as [[H' _] | [_ ->]];
      [congruence | done].
Qed.

Lemma clean_cloned_html_contract_witness :
  let inner := [10%N] ++ Py.lit "<!DOCTYPE html><p>x</p>" ++ [10%N] in
  strip_fences (FENCE_HTML ++ inner ++ FENCE)
  = Py.lit "<!DOCTYPE html><p>x</p>"
  /\ Py.startswith DOCTYPE (clean_cloned_html (FENCE_HTML ++ inner ++ FENCE))
     = true
  /\ clean_cloned_html (Py.lit "<p>x</p>")
     = DOCTYPE ++ [10%N] ++ Py.lit "<p>x</p>".
Proof.
  cbv zeta.
  destruct (clean_cloned_html_contract
              (FENCE_HTML
               ++ ([10%N] ++ Py.lit "<!DOCTYPE html><p>x</p>" ++ [10%N])
               ++ FENCE)) as (_ & Hfence & _).
  destruct (Hfence ([10%N] ++ Py.lit "<!DOCTYPE html><p>x</p>" ++ [10%N])
              eq_refl) as [Hs Hd].
  destruct (clean_cloned_html_contract (Py.lit "<p>x</p>"))
    as (_ & _ & _ & Hpre & _).
  split; [exact Hs|]. split; [exact Hd|]. apply Hpre. reflexivity.
Defined.

(** A store file whose text is no JSON is read as an absent file. *)
Lemma clone_website_with_llm_load_eq (env : CloneEnv) (url_id : str)
    (f1 f2 : store_file) :
  load_scraped_data f1 = load_scraped_data f2 ->
  clone_website_with_llm env url_id f1 = clone_website_with_llm env url_id f2.
Proof. unfold clone_website_with_llm. by intros ->. Qed.

(** What the loader does with a file that exists and opens, by the
    outcome of [json.load]. *)
Lemma load_scraped_data_content (c : file_content) :
  load_scraped_data (Content c)
  = match json_load c with
    | Raise (JSONDecodeError _) => Ok ∅
    | r => r
    end.
Proof. done. Qed.

(** C9, amended.  The loader returns an empty mapping when the file is
    absent and when [json.load] raises a [JSONDecodeError] on it; an
    exception of any other class, from [open] or from [json.load], is not
    caught and reaches the caller; a document is returned as it is.  A file
    on which the parser raises a [JSONDecodeError] therefore behaves as an
    absent file for the reading endpoints and for a scrape, which rewrites
    it. *)
Theorem load_scraped_data_tolerates_invalid_json :
  load_scraped_data NoFile = Ok ∅
  /\ (forall c msg,
        json_load c = Raise (JSONDecodeError msg) ->
        load_scraped_data (Content c) = Ok ∅)
  /\ (forall c e,
        json_load c = Raise e ->
        (forall msg, e <> JSONDecodeError msg) ->
        load_scraped_data (Content c) = Raise e)
  /\ (forall c d,
        json_load c = Ok d -> load_scraped_data (Content c) = Ok d)
  /\ (forall msg, load_scraped_data (NoAccess msg) = Raise (Error msg))
  /\ (forall c msg,
        json_load c = Raise (JSONDecodeError msg) ->
        let corrupt := Content c in
        get_scraped_data corrupt = Ok ∅
        /\ (forall env url_id,
              clone_website_with_llm env url_id corrupt
              = clone_website_with_llm env url_id NoFile)
        /\ (forall env request_url,
              fst (scrape_website env request_url corrupt)
              = fst (scrape_website env request_url NoFile)
              /\ (is_ok (fst (scrape_website env request_url corrupt)) = true ->
                  snd (scrape_website env request_url corrupt)
                  = snd (scrape_website env request_url NoFile)))).
Proof.
  assert (forall c msg,
             json_load c = Raise (JSONDecodeError msg) ->
             load_scraped_data (Content c) = Ok ∅) as Hcaught.
  { intros c msg Hc. by rewrite load_scraped_data_content, Hc. }
  split; [done|]. split; [exact Hcaught|]. split; [|split; [|split]].
  - intros c e Hc Hclass. rewrite load_scraped_data_content, Hc.
    destruct e as [m| | | |]; [by destruct (Hclass m) | done..].
  - intros c d Hc. by rewrite load_scraped_data_content, Hc.
  - done.
  - intros c msg Hc. cbv zeta.
    pose proof (Hcaught c msg Hc) as Hload.
    split; [exact Hload|]. split.
    + intros env url_id. by apply clone_website_with_llm_load_eq.
    + intros env request_url. by apply scrape_website_load_eq.
Qed.

Lemma load_scraped_data_tolerates_invalid_json_witness :
  let env :=
    example_env (Ok example_page) (Ok example_soup) (Ok tt) (Ok tt) (Ok tt)
      Saved in
  let corrupt := Content (InvalidJSON (Py.lit "Expecting value")) in
  load_scraped_data corrupt = Ok ∅
  /\ load_scraped_data
       (Content (ParserFails (Py.lit "maximum recursion depth exceeded")))
     = Raise (Error (Py.lit "maximum recursion depth exceeded"))
  /\ snd (scrape_website env example_url corrupt)
     = snd (scrape_website env example_url NoFile).
Proof.
  cbv zeta.
  destruct load_scraped_data_tolerates_invalid_json
    as (_ & Hcaught & Hother & _ & _ & H).
  split; [|split].
  - apply (Hcaught _ (Py.lit "Expecting value")). reflexivity.
  - apply Hother; [reflexivity | discriminate].
  - destruct (H (InvalidJSON (Py.lit "Expecting value"))
                (Py.lit "Expecting value") eq_refl) as (_ & _ & Hscrape).
    apply Hscrape. vm_compute. reflexivity.
Defined.

End Clone.

(** * Further properties of the code *)

(** ** The identifier normalizer, continued *)

Section NormalizerMore.

Ltac walk_front :=
  repeat (progress
            (rewrite ?replace_from_here, ?replace_from_skipping,
               ?startswith_cons, ?startswith_nil;
             cbn [N.eqb Pos.eqb andb length Nat.sub app])).

Lemma removed_markers_https (x : str) :
  removed_markers (Py.lit "https://" ++ x) = removed_markers x.
Proof.
  unfold removed_markers.
  by rewrite (replace_occurrence (Py.lit "https://")) by done.
Qed.

Lemma removed_markers_http (x : str) :
  removed_markers (Py.lit "http://" ++ x) = removed_markers x.
Proof.
  unfold removed_markers.
  assert (Py.replace (Py.lit "https://") [] (Py.lit "http://" ++ x)
          = Py.lit "http://" ++ Py.replace (Py.lit "https://") [] x) as ->.
  { unfold Py.replace.
    change (Py.lit "https://") with [104; 116; 116; 112; 115; 58; 47; 47]%N.
    change (Py.lit "http://") with [104; 116; 116; 112; 58; 47; 47]%N.
    cbn [app]. by walk_front. }
  by rewrite (replace_occurrence (Py.lit "http://")) by done.
Qed.

Lemma removed_markers_www (x : str) :
  removed_markers (Py.lit "www." ++ x) = removed_markers x.
Proof.
  unfold removed_markers.
  assert (forall q, Py.replace (Py.lit "https://") [] (Py.lit "www." ++ q)
                    = Py.lit "www." ++ Py.replace (Py.lit "https://") [] q)
    as ->.
  { intros q. unfold Py.replace.
    change (Py.lit "https://") with [104; 116; 116; 112; 115; 58; 47; 47]%N.
    change (Py.lit "www.") with [119; 119; 119; 46]%N.
    cbn [app]. by walk_front. }
  assert (forall q, Py.replace (Py.lit "http://") [] (Py.lit "www." ++ q)
                    = Py.lit "www." ++ Py.replace (Py.lit "http://") [] q)
    as ->.
  { intros q. unfold Py.replace.
    change (Py.lit "http://") with [104; 116; 116; 112; 58; 47; 47]%N.
    change (Py.lit "www.") with [119; 119; 119; 46]%N.
    cbn [app]. by walk_front. }
  by rewrite (replace_occurrence (Py.lit "www.")) by done.
Qed.

(** X1.  A scheme or a [www.] in front of a URL does not change its key:
    [https://x], [http://x], [www.x] and [x] all get the key of [x], and
    so do the combinations of a scheme with [www.]. *)
Theorem normalize_url_id_front_insensitive (x : str) :
  normalize_url_id (Py.lit "https://" ++ x) = normalize_url_id x
  /\ normalize_url_id (Py.lit "http://" ++ x) = normalize_url_id x
  /\ normalize_url_id (Py.lit "www." ++ x) = normalize_url_id x
  /\ normalize_url_id (Py.lit "https://" ++ Py.lit "www." ++ x)
     = normalize_url_id x
  /\ normalize_url_id (Py.lit "http://" ++ Py.lit "www." ++ x)
     = normalize_url_id x.
Proof.
  rewrite !normalize_url_id_eq.
  by rewrite !removed_markers_https, !removed_markers_http,
    !removed_markers_www.
Qed.

Lemma replace_from_delete_length (old : str) (k : nat) (s : str) :
  length (Py.replace_from old [] k s) <= length s.
Proof.
  revert k. induction s as [|c s IH]; intros k; [done|].
  cbn [Py.replace_from]. destruct k as [|k].
  - destruct (Py.startswith old (c :: s)); cbn.
    + specialize (IH (length old - 1)). lia.
    + specialize (IH 0). lia.
  - specialize (IH k). cbn. lia.
Qed.

Lemma removed_markers_length (url : str) :
  length (removed_markers url) <= length url.
Proof.
  unfold removed_markers, Py.replace.
  change (Py.lit "https://") with [104; 116; 116; 112; 115; 58; 47; 47]%N.
  change (Py.lit "http://") with [104; 116; 116; 112; 58; 47; 47]%N.
  change (Py.lit "www.") with [119; 119; 119; 46]%N.
  cbv iota.
  etrans; [apply replace_from_delete_length|].
  etrans; [apply replace_from_delete_length|].
  apply replace_from_delete_length.
Qed.

(** X2.  A key has at most 105 characters; the key of a URL of at most
    100 characters is not truncated and is no longer than the URL. *)
Theorem normalize_url_id_length (url : str) :
  length (normalize_url_id url) <= 105
  /\ (length url <= 100 ->
      normalize_url_id url = underscore <$> removed_markers url
      /\ length (normalize_url_id url) <= length url).
Proof.
  pose proof (removed_markers_length url) as Hlen.
  rewrite normalize_url_id_eq. unfold truncate_key.
  rewrite length_fmap. split.
  - destruct (100 <? length (removed_markers url)) eqn:E.
    + rewrite length_app, length_take, length_fmap.
      change (length HASH_SUFFIX) with 5. lia.
    + apply Nat.ltb_ge in E. rewrite length_fmap. lia.
  - intros Hurl.
    assert (100 <? length (removed_markers url) = false) as ->
      by (apply Nat.ltb_ge; lia).
    split; [done|]. rewrite length_fmap. lia.
Qed.

Lemma normalize_url_id_length_witness :
  normalize_url_id (Py.lit "http://example.com/")
  = underscore <$> removed_markers (Py.lit "http://example.com/")
  /\ length (normalize_url_id (Py.lit "http://example.com/"))
     <= length (Py.lit "http://example.com/").
Proof.
  apply (normalize_url_id_length (Py.lit "http://example.com/")).
  vm_compute. lia.
Defined.

End NormalizerMore.

(** ** The response validator, continued *)

Section ValidatorMore.

Lemma lstrip_app_nonspace (a : str) (c : N) (b : str) :
  Py.isspace c = false -> Py.lstrip (a ++ c :: b) = Py.lstrip a ++ c :: b.
Proof.
  intros Hc. induction a as [|x a IH]; cbn.
  - by rewrite Hc.
  - by destruct (Py.isspace x).
Qed.

Lemma rstrip_app_nonspace (a : str) (c : N) (b : str) :
  Py.isspace c = false -> Py.rstrip (a ++ c :: b) = a ++ c :: Py.rstrip b.
Proof.
  intros Hc. unfold Py.rstrip.
  rewrite reverse_app, reverse_cons, <- app_assoc. cbn [app].
  rewrite (lstrip_app_nonspace _ _ _ Hc).
  rewrite reverse_app, reverse_cons, reverse_involutive.
  by rewrite <- app_assoc.
Qed.

(** Stripping keeps a declaration that stands in front. *)
Lemma strip_keeps_doctype (s : str) :
  Py.startswith DOCTYPE s = true -> Py.startswith DOCTYPE (Py.strip s) = true.
Proof.
  intros [t ->]%startswith_spec. unfold Py.strip.
  assert (Py.lstrip (DOCTYPE ++ t) = DOCTYPE ++ t) as -> by done.
  change DOCTYPE with (Py.lit "<!DOCTYPE html" ++ [62%N]).
  rewrite <- app_assoc. cbn [app].
  rewrite rstrip_app_nonspace by done.
  apply startswith_spec. exists (Py.rstrip t). by rewrite <- app_assoc.
Qed.

(** A text that begins with a fence has no white space in front. *)
Lemma fence_front (s : str) :
  Py.startswith FENCE s = true ->
  Py.lstrip s = s /\ Py.startswith DOCTYPE s = false
  /\ Py.startswith DOCTYPE (Py.strip s) = false.
Proof.
  intros [t ->]%startswith_spec.
  assert (Py.lstrip (FENCE ++ t) = FENCE ++ t) as Hl by done.
  split; [done|]. split; [done|].
  destruct (Py.startswith DOCTYPE (Py.strip (FENCE ++ t))) eqn:E; [|done].
  apply startswith_strip in E. by rewrite Hl in E.
Qed.

Lemma fence_html_front (s : str) :
  Py.startswith FENCE_HTML s = true -> Py.startswith FENCE s = true.
Proof.
  rewrite !startswith_spec. intros [t ->]. exists (Py.lit "html" ++ t).
  done.
Qed.

Lemma strip_fences_no_fence (s : str) :
  Py.startswith FENCE s = false -> strip_fences s = s.
Proof.
  intros Hs. unfold strip_fences. rewrite Hs.
  destruct (Py.startswith FENCE_HTML s) eqn:E; [|done].
  apply fence_html_front in E. congruence.
Qed.

Lemma clean_cloned_html_doctype_front (raw : str) :
  Py.startswith DOCTYPE raw = true -> clean_cloned_html raw = raw.
Proof.
  intros Hd. unfold clean_cloned_html.
  assert (strip_fences raw = raw) as ->.
  { apply strip_fences_no_fence.
    destruct (Py.startswith FENCE raw) eqn:E; [|done].
    apply fence_front in E as (_ & E & _). congruence. }
  by rewrite (strip_keeps_doctype raw Hd).
Qed.

(** X3.  A text that is not fenced and begins with the declaration is
    returned as it is: the declaration is not put in front a second
    time, and white space after the document stays. *)
Theorem clean_cloned_html_keeps_document (raw : str) :
  Py.startswith DOCTYPE raw = true ->
  clean_cloned_html raw = raw /\ strip_fences raw = raw.
Proof.
  intros Hd. split; [by apply clean_cloned_html_doctype_front|].
  apply strip_fences_no_fence.
  destruct (Py.startswith FENCE raw) eqn:E; [|done].
  apply fence_front in E as (_ & E & _). congruence.
Qed.

Lemma clean_cloned_html_keeps_document_witness :
  clean_cloned_html (Py.lit "<!DOCTYPE html><html></html>  ")
  = Py.lit "<!DOCTYPE html><html></html>  ".
Proof.
  apply (clean_cloned_html_keeps_document
           (Py.lit "<!DOCTYPE html><html></html>  ")).
  reflexivity.
Defined.

(** X4.  The validator is idempotent: its result is a text it returns
    unchanged. *)
Theorem clean_cloned_html_idempotent (raw : str) :
  clean_cloned_html (clean_cloned_html raw) = clean_cloned_html raw.
Proof.
  destruct (clean_cloned_html_cases raw) as [[_ ->] | [Hd ->]].
  - apply clean_cloned_html_doctype_front.
    apply startswith_spec. eauto.
  - assert (Py.startswith FENCE (strip_fences raw) = false) as Hno.
    { destruct (Py.startswith FENCE (strip_fences raw)) eqn:E; [|done].
      apply fence_front in E as (_ & _ & E). congruence. }
    unfold clean_cloned_html.
    by rewrite (strip_fences_no_fence _ Hno), Hd.
Qed.

(** X5.  The fence markers are taken off only from a text that ends with
    the closing marker.  A text that opens with a fence and goes on after
    the closing marker, with a line break for instance, keeps both markers,
    and the declaration is put in front of it. *)
Theorem clean_cloned_html_trailing_text (raw : str) :
  Py.endswith FENCE raw = false ->
  strip_fences raw = raw
  /\ (Py.startswith FENCE raw = true ->
      clean_cloned_html raw = DOCTYPE ++ [10%N] ++ raw).
Proof.
  intros He.
  assert (strip_fences raw = raw) as Hs.
  { unfold strip_fences. by rewrite He, !andb_false_r. }
  split; [done|]. intros Hf. unfold clean_cloned_html. rewrite Hs.
  apply fence_front in Hf as (_ & _ & ->). done.
Qed.

Lemma clean_cloned_html_trailing_text_witness :
  let raw := FENCE_HTML ++ Py.lit "<!DOCTYPE html><p>x</p>" ++ FENCE
             ++ [10%N] in
  strip_fences raw = raw
  /\ clean_cloned_html raw = DOCTYPE ++ [10%N] ++ raw.
Proof.
  cbv zeta.
  destruct (clean_cloned_html_trailing_text
              (FENCE_HTML ++ Py.lit "<!DOCTYPE html><p>x</p>" ++ FENCE
               ++ [10%N]) eq_refl) as [Hs Hc].
  split; [exact Hs|]. apply Hc. reflexivity.
Defined.

End ValidatorMore.

(** ** The scrape endpoint, continued *)

Section ScrapeMore.

Ltac open_scrape :=
  unfold scrape_website, scrape_body, mbind, mcatch, lift, mret,
    raise_for_status, save_scraped_data.

Lemma getitem_scrape_assets (env : ScrapeEnv) (base : str) (soup : Soup) :
  getitem (scrape_assets env base soup) (Py.lit "images")
  = Ok (resolved_urls env base (img_src soup))
  /\ getitem (scrape_assets env base soup) (Py.lit "stylesheets")
     = Ok (resolved_urls env base (stylesheet_href soup))
  /\ getitem (scrape_assets env base soup) (Py.lit "scripts")
     = Ok (resolved_urls env base (script_src soup)).
Proof.
  unfold getitem. rewrite scrape_assets_eq. split; [|split].
  - rewrite 2!lookup_insert_ne by done. by rewrite lookup_insert_eq.
  - rewrite lookup_insert_ne by done. by rewrite lookup_insert_eq.
  - by rewrite lookup_insert_eq.
Qed.

(** The result of the run that rewrites the file, in full. *)
Lemma scrape_website_saved_eq (env : ScrapeEnv) (request_url : str)
    (f : store_file) (d0 : Store) (res : Response) (soup : Soup)
    (base : str) (shot : option str) :
  load_scraped_data f = Ok d0 ->
  client_get env request_url = Ok res ->
  is_success res = true ->
  BeautifulSoup env (text res) = Ok soup ->
  httpx_URL env request_url = Ok base ->
  take_screenshot env request_url (normalize_url_id request_url) = Ok shot ->
  store_write env = Saved ->
  scrape_website env request_url f
  = (Ok {| summary_success := true;
           summary_url := request_url;
           summary_title :=
             title (scraped_entry env request_url res soup base shot);
           summary_id := normalize_url_id request_url;
           html_content_length := length (text res);
           screenshot_url := shot;
           assets_count :=
             {| images := length (resolved_urls env base (img_src soup));
                stylesheets :=
                  length (resolved_urls env base (stylesheet_href soup));
                scripts := length (resolved_urls env base (script_src soup));
                links := 0 |} |},
     Content (Document
                (<[normalize_url_id request_url :=
                     scraped_entry env request_url res soup base shot]> d0))).
Proof.
  intros Hload Hget Hsucc Hsoup Hbase Hshot Hsave.
  destruct (getitem_scrape_assets env base soup) as (H1 & H2 & H3).
  open_scrape.
  by rewrite Hload, Hget, Hsucc, Hsoup, Hbase, Hshot, Hsave, H1, H2, H3.
Qed.

(** The exception that leaves the [try] of [scrape_website] has passed
    through one of the three [except] clauses. *)
Lemma scrape_website_raises (env : ScrapeEnv) (request_url : str)
    (f : store_file) (e : exn) :
  fst (scrape_website env request_url f) = Raise e ->
  load_scraped_data f = Raise e
  \/ is_ok (load_scraped_data f) = true
     /\ exists cause, e = scrape_handler request_url cause.
Proof.
  unfold scrape_website, mbind, mcatch, lift.
  destruct (load_scraped_data f) as [d0|e0]; cbn [fst];
    [|intros [= <-]; by left].
  intros He. right. split; [done|].
  destruct (scrape_body env request_url (normalize_url_id request_url) d0 f)
    as [[s|cause] f'] eqn:Hbody; [done|].
  exists cause. cbn in He. by injection He as <-.
Qed.

Lemma scrape_handler_status (request_url : str) (cause : exn) :
  exists status detail,
    scrape_handler request_url cause = HTTPException status detail
    /\ ((forall msg response, cause <> HTTPStatusError msg response) ->
        status = 500)
    /\ (forall msg response,
          cause = HTTPStatusError msg response ->
          status = status_code response).
Proof.
  destruct cause as [m|m|m r|m|s d]; cbn; eexists _, _;
    (split; [reflexivity|]); split; try done.
  - intros H. by destruct (H m r).
  - by intros ? ? [= _ <-].
Qed.

(** X6.  Whatever error a scrape request ends with is either the
    exception of the loader, raised before the [try] when the store file
    cannot be read, with nothing fetched or written, or an
    [HTTPException] from one of the three [except] clauses; its status is
    500 unless the cause is an HTTP-status error, whose response status it
    then carries. *)
Theorem scrape_website_error_shape (env : ScrapeEnv) (request_url : str)
    (f : store_file) (e : exn) :
  fst (scrape_website env request_url f) = Raise e ->
  (load_scraped_data f = Raise e
   /\ snd (scrape_website env request_url f) = f
   /\ exists msg, e = Error msg)
  \/ (is_ok (load_scraped_data f) = true
      /\ exists cause status detail,
           e = HTTPException status detail
           /\ e = scrape_handler request_url cause
           /\ ((forall msg response, cause <> HTTPStatusError msg response) ->
               status = 500)
           /\ (forall msg response,
                 cause = HTTPStatusError msg response ->
                 status = status_code response)).
Proof.
  intros He.
  destruct (scrape_website_raises env request_url f e He)
    as [Hload | [Hload [cause ->]]].
  - left. split; [done|]. split.
    + unfold scrape_website, mbind. by rewrite Hload.
    + by eapply load_scraped_data_raises.
  - right. split; [done|].
    destruct (scrape_handler_status request_url cause)
      as (status & detail & Heq & H500 & Hup).
    exists cause, status, detail. by rewrite Heq.
Qed.

Lemma scrape_website_error_shape_witness :
  let env :=
    example_env (Raise (RequestError (Py.lit "timed out"))) (Ok example_soup)
      (Ok tt) (Ok tt) (Ok tt) Saved in
  let e :=
    HTTPException 500
      (Py.lit "An error occurred while requesting https://www.example.com/a?b=1: timed out") in
  (load_scraped_data NoFile = Raise e
   /\ snd (scrape_website env example_url NoFile) = NoFile
   /\ exists msg, e = Error msg)
  \/ (is_ok (load_scraped_data NoFile) = true
      /\ exists cause status detail,
           e = HTTPException status detail
           /\ e = scrape_handler example_url cause
           /\ ((forall msg response, cause <> HTTPStatusError msg response) ->
               status = 500)
           /\ (forall msg response,
                 cause = HTTPStatusError msg response ->
                 status = status_code response)).
Proof.
  cbv zeta.
  apply (scrape_website_error_shape
           (example_env (Raise (RequestError (Py.lit "timed out")))
              (Ok example_soup) (Ok tt) (Ok tt) (Ok tt) Saved)
           example_url NoFile).
  reflexivity.
Defined.

Lemma take_screenshot_is_ok (env : ScrapeEnv) (request_url url_id : str) :
  is_ok (take_screenshot env request_url url_id)
  = is_ok (playwright_start env) && is_ok (chromium_launch env)
    && is_ok (browser_new_page env) && is_ok (browser_close env)
    && is_ok (playwright_stop env).
Proof.
  unfold take_screenshot, with_playwright, rbind, try_except.
  destruct (playwright_start env); [|done].
  destruct (chromium_launch env); [|by destruct (playwright_stop env)].
  destruct (browser_new_page env); [|by destruct (playwright_stop env)].
  destruct (browser_close env); [|by destruct (playwright_stop env)].
  destruct (playwright_stop env); [|done].
  destruct (page_goto env request_url); [|done].
  by destruct (page_screenshot env _).
Qed.

(** X7.  The screenshot step raises exactly when the browser session
    itself fails (the driver start, the launch, the new page, the close
    in [finally], or the driver stop), whatever navigation and capture
    do.  When it raises after a successful fetch and parse, the request
    ends with an [HTTPException], and the store file is as before. *)
Theorem scrape_browser_session_failure (env : ScrapeEnv) (request_url : str)
    (f : store_file) :
  is_ok (take_screenshot env request_url (normalize_url_id request_url))
  = is_ok (playwright_start env) && is_ok (chromium_launch env)
    && is_ok (browser_new_page env) && is_ok (browser_close env)
    && is_ok (playwright_stop env)
  /\ (is_ok (take_screenshot env request_url (normalize_url_id request_url))
      = false ->
      snd (scrape_website env request_url f) = f
      /\ exists e, fst (scrape_website env request_url f) = Raise e).
Proof.
  split; [apply take_screenshot_is_ok|]. intros Hshot. open_scrape.
  destruct (load_scraped_data f) as [d0|e0]; [|cbn; eauto].
  destruct (client_get env request_url) as [res|e1]; [|cbn; eauto].
  destruct (is_success res); [|cbn; eauto].
  destruct (BeautifulSoup env (text res)) as [soup|e2]; [|cbn; eauto].
  destruct (httpx_URL env request_url) as [base|e3]; [|cbn; eauto].
  destruct (take_screenshot env request_url (normalize_url_id request_url))
    as [shot|e4]; [done|cbn; eauto].
Qed.

Lemma scrape_browser_session_failure_witness :
  let env :=
    example_env (Ok example_page) (Ok example_soup)
      (Raise (Error (Py.lit "executable not found"))) (Ok tt) (Ok tt) Saved in
  let f := Content (Document example_store) in
  snd (scrape_website env example_url f) = f
  /\ exists e, fst (scrape_website env example_url f) = Raise e.
Proof.
  cbv zeta.
  apply (scrape_browser_session_failure
           (example_env (Ok example_page) (Ok example_soup)
              (Raise (Error (Py.lit "executable not found"))) (Ok tt) (Ok tt)
              Saved)
           example_url (Content (Document example_store))).
  reflexivity.
Defined.

End ScrapeMore.

(** ** From a scrape to its readers *)

Section ScrapeReaders.

Lemma take_screenshot_value (env : ScrapeEnv) (request_url url_id : str)
    (shot : option str) :
  take_screenshot env request_url url_id = Ok shot ->
  shot = None
  \/ shot = Some (Py.lit "/public/screenshots/" ++ url_id ++ Py.lit ".png").
Proof.
  unfold take_screenshot, with_playwright, rbind, try_except.
  destruct (playwright_start env); [|done].
  destruct (chromium_launch env); [|by destruct (playwright_stop env)].
  destruct (browser_new_page env); [|by destruct (playwright_stop env)].
  destruct (browser_close env); [|by destruct (playwright_stop env)].
  destruct (playwright_stop env); [|done].
  destruct (page_goto env request_url); [|intros [= <-]; by left].
  destruct (page_screenshot env _); intros [= <-]; [by right | by left].
Qed.

(** A successful request, with the outcomes it rests on. *)
Lemma scrape_website_ok_inv (env : ScrapeEnv) (request_url : str)
    (f : store_file) (summary : ScrapeSummary) :
  fst (scrape_website env request_url f) = Ok summary ->
  exists d0 res soup base shot,
    load_scraped_data f = Ok d0
    /\ take_screenshot env request_url (normalize_url_id request_url)
       = Ok shot
    /\ scrape_website env request_url f
       = (Ok summary,
          Content (Document
                     (<[normalize_url_id request_url :=
                          scraped_entry env request_url res soup base shot]>
                        d0)))
    /\ summary
       = {| summary_success := true;
            summary_url := request_url;
            summary_title :=
              title (scraped_entry env request_url res soup base shot);
            summary_id := normalize_url_id request_url;
            html_content_length := length (text res);
            screenshot_url := shot;
            assets_count :=
              {| images := length (resolved_urls env base (img_src soup));
                 stylesheets :=
                   length (resolved_urls env base (stylesheet_href soup));
                 scripts :=
                   length (resolved_urls env base (script_src soup));
                 links := 0 |} |}.
Proof.
  intros Hok.
  destruct (scrape_website_inv env request_url f)
    as [[_ Hr] | [[_ Hr] | (d0 & res & soup & base & shot & Hload & Hget
                            & Hsucc & Hsoup & Hbase & Hshot & Hsave)]].
  - by rewrite Hok in Hr.
  - by rewrite Hok in Hr.
  - pose proof (scrape_website_saved_eq env request_url f d0 res soup base
                  shot Hload Hget Hsucc Hsoup Hbase Hshot Hsave) as Heq.
    rewrite Heq in Hok. cbn [fst] in Hok. injection Hok as <-.
    by exists d0, res, soup, base, shot.
Qed.

(** X8.  After a successful scrape the stored record can be read back
    under the id of the summary, and the summary agrees with it: same id,
    URL, title and screenshot path, the length of the stored markup, and
    the lengths of the three stored asset lists, with a [links] count of 0.
    The screenshot URL is absent or the path
    [/public/screenshots/<id>.png]. *)
Theorem scrape_summary_matches_record (env : ScrapeEnv) (request_url : str)
    (f : store_file) (summary : ScrapeSummary) :
  fst (scrape_website env request_url f) = Ok summary ->
  exists d entry h a l1 l2 l3,
    get_scraped_data (snd (scrape_website env request_url f)) = Ok d
    /\ d !! summary_id summary = Some entry
    /\ summary_success summary = true
    /\ summary_id summary = normalize_url_id request_url
    /\ id entry = summary_id summary
    /\ summary_url summary = request_url
    /\ url entry = request_url
    /\ title entry = summary_title summary
    /\ screenshot_path entry = screenshot_url summary
    /\ html_content entry = Some h
    /\ html_content_length summary = length h
    /\ assets entry = Some a
    /\ a !! Py.lit "images" = Some l1
    /\ a !! Py.lit "stylesheets" = Some l2
    /\ a !! Py.lit "scripts" = Some l3
    /\ assets_count summary
       = {| images := length l1; stylesheets := length l2;
            scripts := length l3; links := 0 |}
    /\ (screenshot_url summary = None
        \/ screenshot_url summary
           = Some (Py.lit "/public/screenshots/" ++ summary_id summary
                   ++ Py.lit ".png")).
Proof.
  intros Hok.
  destruct (scrape_website_ok_inv env request_url f summary Hok)
    as (d0 & res & soup & base & shot & Hload & Hshot & Heq & ->).
  rewrite Heq. cbn [snd].
  destruct (getitem_scrape_assets env base soup) as (H1 & H2 & H3).
  unfold getitem in H1, H2, H3.
  eexists _, (scraped_entry env request_url res soup base shot), (text res),
    (scrape_assets env base soup), _, _, _.
  split; [reflexivity|]. split; [apply lookup_insert_eq|].
  cbn [summary_success summary_id summary_url summary_title screenshot_url
         html_content_length assets_count scraped_entry id url title
         screenshot_path html_content assets].
  repeat (split; [reflexivity|]).
  split; [by destruct (scrape_assets env base soup !! Py.lit "images");
            simplify_eq|].
  split; [by destruct (scrape_assets env base soup !! Py.lit "stylesheets");
            simplify_eq|].
  split; [by destruct (scrape_assets env base soup !! Py.lit "scripts");
            simplify_eq|].
  split; [reflexivity|].
  by apply (take_screenshot_value env request_url).
Qed.

Lemma scrape_summary_matches_record_witness :
  let env :=
    example_env (Ok example_page) (Ok example_soup) (Ok tt) (Ok tt) (Ok tt)
      Saved in
  exists d entry,
    get_scraped_data (snd (scrape_website env example_url NoFile)) = Ok d
    /\ d !! Py.lit "example_com_a_b_1" = Some entry
    /\ screenshot_path entry
       = Some (Py.lit "/public/screenshots/example_com_a_b_1.png").
Proof.
  cbv zeta.
  destruct (scrape_summary_matches_record
              (example_env (Ok example_page) (Ok example_soup) (Ok tt)
                 (Ok tt) (Ok tt) Saved)
              example_url NoFile _ eq_refl)
    as (d & entry & h & a & l1 & l2 & l3 & Hget & Hd & _ & _ & _ & _ & _
        & _ & Hp & _).
  exists d, entry. split; [exact Hget|]. split; [exact Hd|]. exact Hp.
Defined.

End ScrapeReaders.

(** ** The clone endpoint, continued *)

Section CloneMore.

(** The four ways a clone request can go. *)
Lemma clone_website_with_llm_cases (env : CloneEnv) (url_id : str)
    (f : store_file) :
  (exists e,
      load_scraped_data f = Raise e
      /\ clone_website_with_llm env url_id f = (Raise e, []))
  \/ (exists d,
        load_scraped_data f = Ok d /\ d !! url_id = None
        /\ clone_website_with_llm env url_id f
           = (Raise (HTTPException 404
                       (Py.lit "Scraped data not found for this URL ID.")),
              []))
  \/ (exists d data,
        load_scraped_data f = Ok d /\ d !! url_id = Some data
        /\ insufficient_data env data = true
        /\ clone_website_with_llm env url_id f
           = (Raise (HTTPException 400
                       (Py.lit "No HTML content or screenshot available for cloning.")),
              []))
  \/ (exists d data,
        load_scraped_data f = Ok d /\ d !! url_id = Some data
        /\ insufficient_data env data = false
        /\ snd (clone_website_with_llm env url_id f)
           = [clone_request env data]
        /\ ((exists t rest,
               messages_create env (clone_request env data)
               = Ok (TextAnswer t :: rest)
               /\ fst (clone_website_with_llm env url_id f)
                  = Ok {| success := true;
                          cloned_html := Some (clean_cloned_html t);
                          message := None |})
            \/ (exists cause,
                  fst (clone_website_with_llm env url_id f)
                  = Raise (HTTPException 500
                             (Py.lit "LLM cloning failed: "
                              ++ exn_str cause))))).
Proof.
  unfold clone_website_with_llm.
  destruct (load_scraped_data f) as [d|e]; [|left; eauto].
  destruct (d !! url_id) as [data|] eqn:Hd; [|right; left; eauto].
  fold (clone_screenshot_file env data).
  fold (insufficient_data env data).
  destruct (insufficient_data env data) eqn:Hins.
  - right; right; left. by exists d, data.
  - right; right; right. exists d, data.
    fold (clone_request env data). cbn [fst snd].
    repeat (split; [done|]).
    unfold try_except, rbind, first_text.
    destruct (messages_create env (clone_request env data))
      as [[|[t|cls] rest]|cause]; eauto.
Qed.

(** X9.  A clone request sends at most one request to the model and never
    a second one.  An error it ends with is the exception of the loader or
    an [HTTPException] with status 404, 400 or 500; with 404 and 400 no
    request has been sent, and status 500 comes only after the one request.
    A response reports success, carries a document and no message, and the
    document begins with the declaration once leading white space is
    passed over. *)
Theorem clone_website_with_llm_outcomes (env : CloneEnv) (url_id : str)
    (f : store_file) :
  length (snd (clone_website_with_llm env url_id f)) <= 1
  /\ (forall e,
        fst (clone_website_with_llm env url_id f) = Raise e ->
        load_scraped_data f = Raise e
        /\ snd (clone_website_with_llm env url_id f) = []
        \/ exists status detail,
             e = HTTPException status detail
             /\ (status = 404 \/ status = 400 \/ status = 500)
             /\ (status = 500 <->
                 length (snd (clone_website_with_llm env url_id f)) = 1))
  /\ (forall r,
        fst (clone_website_with_llm env url_id f) = Ok r ->
        length (snd (clone_website_with_llm env url_id f)) = 1
        /\ success r = true /\ message r = None
        /\ exists h, cloned_html r = Some h
                     /\ Py.startswith DOCTYPE (Py.lstrip h) = true).
Proof.
  destruct (clone_website_with_llm_cases env url_id f)
    as [(e0 & Hl & Heq) | [(d & Hl & Hd & Heq) | [(d & data & Hl & Hd & Hi
         & Heq) | (d & data & Hl & Hd & Hi & Hs & Hr)]]].
  - rewrite Heq. cbn. split; [lia|]. split; [|done].
    intros e [= <-]. by left.
  - rewrite Heq. cbn. split; [lia|]. split; [|done].
    intros e [= <-]. right. eexists _, _. split; [done|].
    split; [by left|]. split; [done|lia].
  - rewrite Heq. cbn. split; [lia|]. split; [|done].
    intros e [= <-]. right. eexists _, _. split; [done|].
    split; [by right; left|]. split; [done|lia].
  - rewrite Hs. cbn [length]. split; [lia|].
    destruct Hr as [(t & rest & _ & ->) | (cause & ->)].
    + split; [done|]. intros r [= <-]. cbn. split; [done|].
      split; [done|]. split; [done|]. eexists. split; [done|].
      apply clean_cloned_html_lstrip.
    + split; [|done]. intros e [= <-]. right. eexists _, _.
      split; [done|]. split; [by right; right|]. done.
Qed.

Lemma clone_website_with_llm_outcomes_witness :
  let env := example_clone_env (Ok [TextAnswer (Py.lit "<p>hello</p>")]) in
  let f :=
    Content (Document {[ Py.lit "page" :=
      {| id := Py.lit "page"; url := Py.lit "http://page";
         html_content := Some (Py.lit "<p>hi</p>");
         screenshot_path := None; assets := None; title := None |} ]}) in
  exists r h,
    fst (clone_website_with_llm env (Py.lit "page") f) = Ok r
    /\ length (snd (clone_website_with_llm env (Py.lit "page") f)) = 1
    /\ cloned_html r = Some h
    /\ Py.startswith DOCTYPE (Py.lstrip h) = true.
Proof.
  cbv zeta.
  destruct (clone_website_with_llm_outcomes
              (example_clone_env (Ok [TextAnswer (Py.lit "<p>hello</p>")]))
              (Py.lit "page")
              (Content (Document {[ Py.lit "page" :=
                 {| id := Py.lit "page"; url := Py.lit "http://page";
                    html_content := Some (Py.lit "<p>hi</p>");
                    screenshot_path := None; assets := None;
                    title := None |} ]})))
    as (_ & _ & Hok).
  destruct (Hok _ eq_refl) as (Hone & _ & _ & h & Hh & Hd).
  eexists _, h. split; [reflexivity|]. split; [exact Hone|].
  split; [exact Hh | exact Hd].
Defined.

Lemma path_join_nonempty (a b : str) : a <> [] -> Py.path_join a b <> [].
Proof.
  intros Ha. unfold Py.path_join.
  destruct (Py.startswith (Py.lit "/") b) eqn:E.
  - apply startswith_spec in E as [t ->]. done.
  - destruct a as [|c a]; [done|]. by repeat case_match.
Qed.

Lemma truthy_clone_screenshot_file (env : CloneEnv) (data : ScrapedData) :
  os_getcwd env <> [] ->
  Py.truthy (clone_screenshot_file env data)
  = Py.truthy (screenshot_path data).
Proof.
  intros Hcwd. unfold clone_screenshot_file.
  destruct (screenshot_path data) as [[|c q]|]; [done| |done].
  cbn [Py.truthy].
  pose proof (path_join_nonempty (os_getcwd env)
                (Py.lstrip_char 47 (c :: q)) Hcwd).
  by destruct (Py.path_join _ _).
Qed.

(** X10.  With a working directory that has a name, a clone request for a
    stored record ends with status 400 exactly when the record has neither
    markup nor a screenshot path, where an empty string counts as absent
    just as [None] does; in every other case the model is asked. *)
Theorem clone_insufficient_data_iff (env : CloneEnv) (url_id : str)
    (f : store_file) (d : Store) (data : ScrapedData) :
  os_getcwd env <> [] ->
  load_scraped_data f = Ok d ->
  d !! url_id = Some data ->
  ((exists detail,
       fst (clone_website_with_llm env url_id f)
       = Raise (HTTPException 400 detail))
   <-> (html_content data = None \/ html_content data = Some [])
       /\ (screenshot_path data = None \/ screenshot_path data = Some []))
  /\ (snd (clone_website_with_llm env url_id f) = []
      <-> (html_content data = None \/ html_content data = Some [])
          /\ (screenshot_path data = None \/ screenshot_path data = Some [])).
Proof.
  intros Hcwd Hload Hd.
  assert (insufficient_data env data = true
          <-> (html_content data = None \/ html_content data = Some [])
              /\ (screenshot_path data = None
                  \/ screenshot_path data = Some [])) as Hins.
  { unfold insufficient_data.
    rewrite (truthy_clone_screenshot_file env data Hcwd).
    rewrite andb_true_iff, !negb_true_iff.
    destruct (html_content data) as [[|c h]|],
      (screenshot_path data) as [[|c' q]|]; cbn; naive_solver. }
  rewrite <- Hins.
  destruct (clone_website_with_llm_cases env url_id f)
    as [(e0 & Hl & Heq) | [(d' & Hl & Hd' & Heq) | [(d' & data' & Hl & Hd'
         & Hi & Heq) | (d' & data' & Hl & Hd' & Hi & Hs & Hr)]]];
    rewrite Hload in Hl; simplify_eq.
  - rewrite Heq. cbn. rewrite Hi. naive_solver.
  - rewrite Hs, Hi. split.
    + split; [|done].
      destruct Hr as [(t & rest & _ & ->) | (cause & ->)];
        by intros [detail [=]].
    + split; done.
Qed.

Lemma clone_insufficient_data_iff_witness :
  let env := example_clone_env (Ok [TextAnswer (Py.lit "<p>hello</p>")]) in
  let f := Content (Document {[ Py.lit "blank" := example_blank_record ]}) in
  (exists detail,
      fst (clone_website_with_llm env (Py.lit "blank") f)
      = Raise (HTTPException 400 detail))
  /\ snd (clone_website_with_llm env (Py.lit "blank") f) = [].
Proof.
  cbv zeta.
  destruct (clone_insufficient_data_iff
              (example_clone_env (Ok [TextAnswer (Py.lit "<p>hello</p>")]))
              (Py.lit "blank")
              (Content (Document {[ Py.lit "blank" := example_blank_record ]}))
              {[ Py.lit "blank" := example_blank_record ]}
              example_blank_record) as [H400 Hnone].
  - discriminate.
  - reflexivity.
  - vm_compute. reflexivity.
  - split.
    + apply H400. split; [by right | by left].
    + apply Hnone. split; [by right | by left].
Defined.

(** X11.  A successful scrape can be cloned unless it brought nothing:
    when its markup is not empty or it has a screenshot, a clone request
    for the id of the summary gets past both rejections and sends its one
    request to the model; when the markup is empty and the screenshot
    failed, the clone request ends with status 400. *)
Theorem scrape_then_clone (env : ScrapeEnv) (cenv : CloneEnv)
    (request_url : str) (f : store_file) (summary : ScrapeSummary) :
  os_getcwd cenv <> [] ->
  fst (scrape_website env request_url f) = Ok summary ->
  let f' := snd (scrape_website env request_url f) in
  (0 < html_content_length summary \/ screenshot_url summary <> None ->
   exists request,
     snd (clone_website_with_llm cenv (summary_id summary) f') = [request])
  /\ (html_content_length summary = 0 ->
      screenshot_url summary = None ->
      clone_website_with_llm cenv (summary_id summary) f'
      = (Raise (HTTPException 400
                  (Py.lit "No HTML content or screenshot available for cloning.")),
         [])).
Proof.
  intros Hcwd Hok. cbv zeta.
  destruct (scrape_website_ok_inv env request_url f summary Hok)
    as (d0 & res & soup & base & shot & Hload & Hshot & Heq & ->).
  rewrite Heq. cbn [snd summary_id html_content_length screenshot_url].
  set (entry := scraped_entry env request_url res soup base shot).
  set (f' := Content (Document (<[normalize_url_id request_url := entry]> d0))).
  assert (insufficient_data cenv entry
          = negb (Py.truthy (Some (text res))) && negb (Py.truthy shot))
    as Hins.
  { unfold insufficient_data.
    by rewrite (truthy_clone_screenshot_file cenv entry Hcwd). }
  destruct (clone_website_with_llm_cases cenv (normalize_url_id request_url)
              f')
    as [(e0 & Hl & _) | [(d' & Hl & Hd' & _) | [(d' & data' & Hl & Hd'
         & Hi & Hc) | (d' & data' & Hl & Hd' & Hi & Hs & _)]]];
    cbn in Hl; simplify_eq.
  - by rewrite lookup_insert_eq in Hd'.
  - rewrite lookup_insert_eq in Hd'. simplify_eq. rewrite Hins in Hi.
    split; [|done]. intros Hsome. exfalso.
    apply andb_true_iff in Hi as [Hh Hp]. destruct Hsome as [Hlen | Hs].
    + destruct (text res); cbn in *; [lia | done].
    + destruct (take_screenshot_value _ _ _ _ Hshot) as [-> | ->]; done.
  - rewrite lookup_insert_eq in Hd'. simplify_eq. rewrite Hins in Hi.
    split; [eauto|]. intros Hlen ->. exfalso.
    destruct (text res); cbn in *; [done | lia].
Qed.

Lemma scrape_then_clone_witness :
  let env :=
    example_env (Ok example_page) (Ok example_soup) (Ok tt)
      (Raise (Error (Py.lit "Timeout 90000ms exceeded"))) (Ok tt) Saved in
  let cenv := example_clone_env (Ok [TextAnswer (Py.lit "<p>hello</p>")]) in
  exists request,
    snd (clone_website_with_llm cenv (Py.lit "example_com_a_b_1")
           (snd (scrape_website env example_url NoFile)))
    = [request].
Proof.
  cbv zeta.
  destruct (scrape_then_clone
              (example_env (Ok example_page) (Ok example_soup) (Ok tt)
                 (Raise (Error (Py.lit "Timeout 90000ms exceeded"))) (Ok tt)
                 Saved)
              (example_clone_env (Ok [TextAnswer (Py.lit "<p>hello</p>")]))
              example_url NoFile _ ltac:(discriminate) eq_refl)
    as [Hsend _].
  apply Hsend. left. vm_compute. lia.
Defined.

(** X12.  The file a clone request looks for is the one the scrape had
    the browser write: the stored path [/public/screenshots/<id>.png]
    without its leading slash, joined to the working directory, is the
    working directory joined with the path that was passed to
    [page.screenshot]. *)
Theorem clone_reads_scraped_screenshot (cenv : CloneEnv) (request_url : str)
    (data : ScrapedData) :
  screenshot_path data
  = Some (Py.lit "/public/screenshots/" ++ normalize_url_id request_url
          ++ Py.lit ".png") ->
  clone_screenshot_file cenv data
  = Some (Py.path_join (os_getcwd cenv)
            (Py.path_join SCREENSHOTS_DIR
               (normalize_url_id request_url ++ Py.lit ".png"))).
Proof.
  intros Hp. unfold clone_screenshot_file. rewrite Hp.
  pose proof (separator_free_normalize_url_id request_url) as Hfree.
  set (key := normalize_url_id request_url) in *.
  assert (Py.startswith (Py.lit "/") (key ++ Py.lit ".png") = false) as Hno.
  { destruct key as [|c key]; [done|].
    apply Forall_cons in Hfree as [Hc _].
    unfold is_separator in Hc.
    apply orb_false_iff in Hc as [Hc _].
    repeat (apply orb_false_iff in Hc as [Hc _]).
    change (Py.lit "/") with [47%N]. cbn [app Py.startswith].
    by rewrite N.eqb_sym, Hc. }
  assert (Py.path_join SCREENSHOTS_DIR (key ++ Py.lit ".png")
          = Py.lit "public/screenshots/" ++ key ++ Py.lit ".png") as ->.
  { unfold Py.path_join. rewrite Hno. done. }
  done.
Qed.

Lemma clone_reads_scraped_screenshot_witness :
  let cenv := example_clone_env (Ok []) in
  clone_screenshot_file cenv
    {| id := Py.lit "example_com_a_b_1"; url := example_url;
       html_content := None;
       screenshot_path :=
         Some (Py.lit "/public/screenshots/example_com_a_b_1.png");
       assets := None; title := None |}
  = Some (Py.lit "/app/public/screenshots/example_com_a_b_1.png").
Proof.
  cbv zeta.
  apply (clone_reads_scraped_screenshot (example_clone_env (Ok []))
           example_url).
  reflexivity.
Defined.

(** X13.  The user message has three or four blocks.  It opens with a
    text block on the markup, which quotes the markup as it is when there
    is some, and closes with the instruction to start with the declaration.
    It holds at most one image, and holds one exactly when a screenshot
    path is there, the file exists and can be read; the image is then the
    second block, a base64 PNG with the encoded file.  A missing or
    unreadable file gives a text block in its place, not an error. *)
Theorem user_message_content_shape (env : CloneEnv) (html : option str)
    (file : option str) :
  let blocks := user_message_content env html file in
  (length blocks = 3 \/ length blocks = 4)
  /\ (exists t, head blocks = Some (TextBlock t)
                /\ forall c h, html = Some (c :: h) ->
                     exists before after, t = before ++ (c :: h) ++ after)
  /\ last blocks
     = Some (TextBlock (Py.lit "Please provide the complete HTML code for the cloned website, starting directly with `<!DOCTYPE html>`."))
  /\ length (List.filter is_image blocks) <= 1
  /\ (length (List.filter is_image blocks) = 1
      <-> exists c q data,
            file = Some (c :: q)
            /\ screenshot_exists env (c :: q) = true
            /\ read_b64encode env (c :: q) = Ok data
            /\ length blocks = 4
            /\ blocks !! 1
               = Some (ImageBlock (Py.lit "base64") (Py.lit "image/png")
                         data)).
Proof.
  cbv zeta. unfold user_message_content.
  assert (forall (hp : list Block) sp,
             length hp = 1 ->
             last (hp ++ sp ++ [TextBlock (Py.lit "Please provide the complete HTML code for the cloned website, starting directly with `<!DOCTYPE html>`.")])
             = Some (TextBlock (Py.lit "Please provide the complete HTML code for the cloned website, starting directly with `<!DOCTYPE html>`."))) as Hlast.
  { intros hp sp _. by rewrite !app_assoc, last_snoc. }
  destruct html as [[|c h]|], file as [[|c' q]|];
    try destruct (screenshot_exists env (c' :: q)) eqn:Hex;
    try destruct (read_b64encode env (c' :: q)) as [data|e] eqn:Hrd;
    (split; [cbn; lia|]);
    (split; [eexists; split; [reflexivity|];
             intros ? ? [=]; subst; eexists _, _; reflexivity|]);
    (split; [by apply Hlast|]);
    (split; [cbn; lia|]);
    cbn [List.filter is_image app length lookup list_lookup];
    (split; [intros Hone | intros (c0 & q0 & d0 & Hf & He & Hr & Hl & Hb)]);
    simplify_eq; try lia; try (by eexists _, _, _).
Qed.

Lemma user_message_content_shape_witness :
  let env :=
    {| os_getcwd := Py.lit "/app";
       screenshot_exists := fun _ => true;
       read_b64encode := fun _ => Ok (Py.lit "iVBORw0KGgo=");
       messages_create := fun _ => Ok [] |} in
  length (List.filter is_image
            (user_message_content env (Some (Py.lit "<p>hi</p>"))
               (Some (Py.lit "/app/public/screenshots/x.png")))) = 1.
Proof.
  cbv zeta.
  destruct (user_message_content_shape
              {| os_getcwd := Py.lit "/app";
                 screenshot_exists := fun _ => true;
                 read_b64encode := fun _ => Ok (Py.lit "iVBORw0KGgo=");
                 messages_create := fun _ => Ok [] |}
              (Some (Py.lit "<p>hi</p>"))
              (Some (Py.lit "/app/public/screenshots/x.png")))
    as (_ & _ & _ & _ & [_ Hone]).
  apply Hone. eexists _, _, _. repeat split; reflexivity.
Defined.

End CloneMore.

(** ** The asset resolver, continued *)

Section ResolverMore.

Lemma resolve_one_failure (env : ScrapeEnv) (base key : str)
    (a : gmap str (list str)) (src : str) :
  is_ok (URL_join env base src) = false ->
  resolve_one env base key a src = a.
Proof.
  intros Hj. unfold resolve_one, rbind.
  destruct (is_inline_ref src); [done|]. cbn [negb].
  by destruct (URL_join env base src).
Qed.

Lemma resolved_urls_length (env : ScrapeEnv) (base : str) (srcs : list str) :
  length (resolved_urls env base srcs) <= length srcs
  /\ (Forall (fun src => is_inline_ref src = false
                         /\ is_ok (URL_join env base src) = true) srcs ->
      length (resolved_urls env base srcs) = length srcs).
Proof.
  unfold resolved_urls. induction srcs as [|src srcs [IH1 IH2]].
  - done.
  - cbn [omap list_omap length]. split.
    + destruct (is_inline_ref src); [lia|].
      destruct (URL_join env base src); cbn [length]; lia.
    + intros [[Hi Hj] Hrest]%Forall_cons. rewrite Hi.
      destruct (URL_join env base src); [|done].
      cbn [length]. by rewrite IH2.
Qed.

(** X14.  One element whose URL cannot be resolved is passed over and
    the loop goes on: the mapping is the one the loop builds without that
    element.  Each category of the result has at most as many URLs as the
    document has elements of the kind, and exactly as many when every
    value is no inline reference and resolves. *)
Theorem asset_resolver_tolerates_failure (env : ScrapeEnv) (base : str) :
  (forall key a before src after,
      is_ok (URL_join env base src) = false ->
      foldl (resolve_one env base key) a (before ++ src :: after)
      = foldl (resolve_one env base key) a (before ++ after))
  /\ (forall soup,
        exists l1 l2 l3,
          scrape_assets env base soup !! Py.lit "images" = Some l1
          /\ scrape_assets env base soup !! Py.lit "stylesheets" = Some l2
          /\ scrape_assets env base soup !! Py.lit "scripts" = Some l3
          /\ length l1 <= length (img_src soup)
          /\ length l2 <= length (stylesheet_href soup)
          /\ length l3 <= length (script_src soup)
          /\ (Forall (fun src => is_inline_ref src = false
                                 /\ is_ok (URL_join env base src) = true)
                (img_src soup) ->
              length l1 = length (img_src soup))).
Proof.
  split.
  - intros key a before src after Hj.
    rewrite !foldl_app. cbn [foldl]. by rewrite resolve_one_failure.
  - intros soup.
    destruct (getitem_scrape_assets env base soup) as (H1 & H2 & H3).
    unfold getitem in H1, H2, H3.
    exists (resolved_urls env base (img_src soup)),
      (resolved_urls env base (stylesheet_href soup)),
      (resolved_urls env base (script_src soup)).
    split; [by destruct (_ !! Py.lit "images"); simplify_eq|].
    split; [by destruct (_ !! Py.lit "stylesheets"); simplify_eq|].
    split; [by destruct (_ !! Py.lit "scripts"); simplify_eq|].
    split; [apply resolved_urls_length|].
    split; [apply resolved_urls_length|].
    split; [apply resolved_urls_length|].
    apply resolved_urls_length.
Qed.

Lemma asset_resolver_tolerates_failure_witness :
  let env :=
    {| client_get := fun _ => Ok example_page;
       status_error_message := fun _ => [];
       BeautifulSoup := fun _ => Ok example_soup;
       httpx_URL := fun u => Ok u;
       URL_join := fun base ref =>
         if bool_decide (ref = Py.lit "http://[") then
           Raise (Error (Py.lit "Invalid IPv6 address"))
         else Ok (base ++ ref);
       playwright_start := Ok tt; chromium_launch := Ok tt;
       browser_new_page := Ok tt; page_goto := fun _ => Ok tt;
       page_screenshot := fun _ => Ok tt; browser_close := Ok tt;
       playwright_stop := Ok tt; store_write := Saved |} in
  foldl (resolve_one env (Py.lit "http://a/") (Py.lit "images")) empty_assets
    ([Py.lit "x.png"] ++ Py.lit "http://[" :: [Py.lit "y.png"])
  = foldl (resolve_one env (Py.lit "http://a/") (Py.lit "images"))
      empty_assets ([Py.lit "x.png"] ++ [Py.lit "y.png"]).
Proof.
  cbv zeta.
  apply (asset_resolver_tolerates_failure
           {| client_get := fun _ => Ok example_page;
              status_error_message := fun _ => [];
              BeautifulSoup := fun _ => Ok example_soup;
              httpx_URL := fun u => Ok u;
              URL_join := fun base ref =>
                if bool_decide (ref = Py.lit "http://[") then
                  Raise (Error (Py.lit "Invalid IPv6 address"))
                else Ok (base ++ ref);
              playwright_start := Ok tt; chromium_launch := Ok tt;
              browser_new_page := Ok tt; page_goto := fun _ => Ok tt;
              page_screenshot := fun _ => Ok tt; browser_close := Ok tt;
              playwright_stop := Ok tt; store_write := Saved |}
           (Py.lit "http://a/")).
  vm_compute. reflexivity.
Defined.

End ResolverMore.

(** ** Failed requests and the store *)

Section FailedRequests.

Ltac open_request :=
  unfold scrape_website, scrape_body, mbind, mcatch, lift, mret,
    raise_for_status, save_scraped_data.

(** X15.  A scrape request that ends in an error has left the store file
    untouched, whatever the error was, unless the write of the file itself
    broke off after the file was opened for writing. *)
Theorem scrape_error_keeps_store_file (env : ScrapeEnv) (request_url : str)
    (f : store_file) (e : exn) :
  fst (scrape_website env request_url f) = Raise e ->
  (forall msg, store_write env <> WriteFails msg) ->
  snd (scrape_website env request_url f) = f.
Proof.
  intros He Hw. revert He. open_request.
  destruct (load_scraped_data f) as [d0|e0]; [|done].
  destruct (client_get env request_url) as [res|e1]; [|done].
  destruct (is_success res); [|done].
  destruct (BeautifulSoup env (text res)) as [soup|e2]; [|done].
  destruct (httpx_URL env request_url) as [base|e3]; [|done].
  destruct (take_screenshot env request_url (normalize_url_id request_url))
    as [shot|e4]; [|done].
  destruct (getitem_scrape_assets env base soup) as (H1 & H2 & H3).
  destruct (store_write env) as [|msg|msg] eqn:Hsave.
  - by rewrite H1, H2, H3.
  - done.
  - by destruct (Hw msg).
Qed.

Lemma scrape_error_keeps_store_file_witness :
  let env :=
    example_env (Ok example_page) (Ok example_soup) (Ok tt) (Ok tt) (Ok tt)
      (OpenFails (Py.lit "Permission denied")) in
  snd (scrape_website env example_url (Content (Document example_store)))
  = Content (Document example_store).
Proof.
  cbv zeta.
  eapply (scrape_error_keeps_store_file
            (example_env (Ok example_page) (Ok example_soup) (Ok tt) (Ok tt)
               (Ok tt) (OpenFails (Py.lit "Permission denied")))
            example_url (Content (Document example_store))).
  - reflexivity.
  - discriminate.
Defined.

End FailedRequests.
